(** * EHS management system: task lifecycle, report submission, rule feedback

    A shallow embedding of the C++ sources [db/Database.cpp],
    [user/user.cpp], [manager/manager.cpp] and [worker/worker.cpp].

    - The SQLite file is a record of three tables.  Every table has an
      [INTEGER PRIMARY KEY AUTOINCREMENT] column [id], so a table is a
      finite map from rowid to the remaining columns.
    - Each SQL statement of the program is a constructor of [Stmt]; its
      effect on the tables is a function of module [Sql].
    - A member function takes the database, the answers typed at its
      prompts and an environment [Env] deciding the calls whose result the
      program cannot control (sqlite3 result codes, the file copy, the
      clock).  It returns a [Run]: how control left the function, the
      database afterwards, and the trace of lock operations, executed
      statements and status lines.
    - Answers are typed: an answer to [std::cin >> n] is [Some n] or [None]
      when the extraction fails; an answer to [std::getline] is the line.
      A prompt loop that rejects every answer it is given never leaves:
      the run is [Starved].
    - The trace keeps the status lines (without their newline, and
      without the library's error text where one is appended); prompts,
      headers and listing rows are not recorded.
    - A text is handed to SQLite as [c_str()] with length -1, and a text
      column is read back as a C string: what is stored, and what is read,
      is the text up to its first 0 byte ([c_str]).
    - A SELECT steps through the rows in rowid order ([Sql.rows]).
    - Ids are integers without a bound: the program only compares them,
      and an id typed at a prompt or read from a rowid fits an [int]. *)

From stdpp Require Import base gmap list strings pretty sorting.
From Stdlib Require Import ZArith Ascii Lia.

Local Open Scope string_scope.
Local Open Scope Z_scope.

(** ** Schema ([DatabaseManager::setupTables]) *)

Module users.
(** [users(id, username UNIQUE, password, role)] *)
Record row := mk { username : string; password : string; role : string }.
End users.

Module tasks.
(** [tasks(id, worker_id, worker_username, task_description, status,
    violation_comment, violation_timestamp, worker_report, worker_media)].
    [worker_id] is declared [TEXT]; the program only ever binds and
    compares it with [sqlite3_bind_int], and SQLite applies the column's
    affinity to both the stored and the compared value, so the column is
    an integer here.  The four last columns are left [NULL] by the
    insert. *)
Record row := mk {
  worker_id : Z;
  worker_username : string;
  task_description : string;
  status : string;
  violation_comment : option string;
  violation_timestamp : option string;
  worker_report : option string;
  worker_media : option string }.
End tasks.

Module rules.
(** [rules(id, rule_text NOT NULL, feedback, timestamp)] *)
Record row := mk { rule_text : string; feedback : option string; timestamp : string }.
End rules.

(** The database file.  [seq_tasks] and [seq_rules] are the rows of
    [sqlite_sequence] that [AUTOINCREMENT] maintains: the largest rowid the
    table ever held. *)
Record Db := mkDb {
  tbl_users : gmap Z users.row;
  tbl_tasks : gmap Z tasks.row;
  tbl_rules : gmap Z rules.row;
  seq_tasks : Z;
  seq_rules : Z }.

Definition with_tasks (t : gmap Z tasks.row) (db : Db) : Db :=
  mkDb (tbl_users db) t (tbl_rules db) (seq_tasks db) (seq_rules db).

Definition with_rules (r : gmap Z rules.row) (db : Db) : Db :=
  mkDb (tbl_users db) (tbl_tasks db) r (seq_tasks db) (seq_rules db).

(** ** The SQL statements of the program *)

Inductive Stmt :=
  | queryWorkers        (* manager.cpp:38 *)
  | getUserSql          (* manager.cpp:71 *)
  | insertSql           (* manager.cpp:85 *)
  | getTasks            (* manager.cpp:115 *)
  | updateSql_violation (* manager.cpp:170 *)
  | query_addRule       (* manager.cpp:213 *)
  | listSql_rules       (* manager.cpp:245 *)
  | deleteSql_rule      (* manager.cpp:277 *)
  | listSql_tasks       (* manager.cpp:306 *)
  | deleteSql_task      (* manager.cpp:339 *)
  | query_assigned      (* worker.cpp:72 *)
  | updateSql_report    (* worker.cpp:140 *)
  | listRulesSql        (* worker.cpp:190 *)
  | updateSql_feedback  (* worker.cpp:226 *)
  | sql_viewAll         (* user.cpp:157 *)
  | sql_viewOwn         (* user.cpp:158 *).

Definition sql_text (q : Stmt) : string :=
  match q with
  | queryWorkers => "SELECT id, username FROM users WHERE role = 'worker';"
  | getUserSql => "SELECT username FROM users WHERE id = ?;"
  | insertSql => "INSERT INTO tasks (worker_id, worker_username, task_description, status) VALUES (?, ?, ?, 'pending');"
  | getTasks => "SELECT id, worker_username, task_description FROM tasks WHERE status = 'pending';"
  | updateSql_violation => "UPDATE tasks SET status = ?, violation_comment = ?, violation_timestamp = ? WHERE id = ?;"
  | query_addRule => "INSERT INTO rules (rule_text, timestamp) VALUES (?, ?);"
  | listSql_rules => "SELECT id, rule_text FROM rules;"
  | deleteSql_rule => "DELETE FROM rules WHERE id = ?;"
  | listSql_tasks => "SELECT id, task_description, worker_username FROM tasks;"
  | deleteSql_task => "DELETE FROM tasks WHERE id = ?;"
  | query_assigned => "SELECT id, task_description, status FROM tasks WHERE worker_id = ? AND status != 'completed';"
  | updateSql_report => "UPDATE tasks SET worker_report = ?, worker_media = ?, status = 'completed' WHERE id = ? AND worker_id = ?;"
  | listRulesSql => "SELECT id, rule_text FROM rules;"
  | updateSql_feedback => "UPDATE rules SET feedback = ? WHERE id = ?"
  | sql_viewAll => "SELECT id, worker_id, worker_username, task_description, status, violation_comment, violation_timestamp, worker_report, worker_media FROM tasks;"
  | sql_viewOwn => "SELECT id, worker_username, task_description, status, violation_comment, violation_timestamp, worker_report, worker_media FROM tasks WHERE worker_id = ?;"
  end.

(** A statement mutates the store when it is an INSERT, UPDATE or DELETE. *)
Definition mutating (q : Stmt) : bool :=
  match q with
  | insertSql | updateSql_violation | query_addRule | deleteSql_rule
  | deleteSql_task | updateSql_report | updateSql_feedback => true
  | _ => false
  end.

Module Sql.

(** The rows of a table in the order a scan yields them: by rowid. *)
Definition rowid_le {A} (x y : Z * A) : Prop := x.1 ≤ y.1.

Global Instance rowid_le_dec {A} : RelDecision (@rowid_le A).
Proof. intros x y. unfold rowid_le. apply _. Defined.

Definition rows {A} (m : gmap Z A) : list (Z * A) :=
  merge_sort rowid_le (map_to_list m).

(** Rowid given by [AUTOINCREMENT]: one more than the largest rowid the
    table holds or ever held. *)
Definition max_rowid {A} (m : gmap Z A) : Z :=
  foldr (λ kv acc, Z.max kv.1 acc) 0 (map_to_list m).

Definition next_rowid {A} (seq : Z) (m : gmap Z A) : Z :=
  Z.max seq (max_rowid m) + 1.

(** [getUserSql]: the first (only) row, if any. *)
Definition select_username (db : Db) (id : Z) : option string :=
  users.username <$> tbl_users db !! id.

(** [insertSql] *)
Definition insert_task (workerId : Z) (username task : string) (db : Db) : Db :=
  let id := next_rowid (seq_tasks db) (tbl_tasks db) in
  mkDb (tbl_users db)
       (<[id := tasks.mk workerId username task "pending" None None None None]> (tbl_tasks db))
       (tbl_rules db) id (seq_rules db).

(** [updateSql_violation]: the SET clause, then the statement. *)
Definition set_violation (status comment timestamp : string) (r : tasks.row) : tasks.row :=
  tasks.mk (tasks.worker_id r) (tasks.worker_username r) (tasks.task_description r)
           status (Some comment) (Some timestamp)
           (tasks.worker_report r) (tasks.worker_media r).

Definition update_violation (status comment timestamp : string) (taskId : Z) (db : Db) : Db :=
  with_tasks (alter (set_violation status comment timestamp) taskId (tbl_tasks db)) db.

(** [query_addRule] *)
Definition insert_rule (rule timestamp : string) (db : Db) : Db :=
  let id := next_rowid (seq_rules db) (tbl_rules db) in
  mkDb (tbl_users db) (tbl_tasks db)
       (<[id := rules.mk rule None timestamp]> (tbl_rules db))
       (seq_tasks db) id.

(** [deleteSql_rule] *)
Definition delete_rule (ruleId : Z) (db : Db) : Db :=
  with_rules (delete ruleId (tbl_rules db)) db.

(** [deleteSql_task] *)
Definition delete_task (taskId : Z) (db : Db) : Db :=
  with_tasks (delete taskId (tbl_tasks db)) db.

(** [query_assigned] *)
Definition select_assigned (userId : Z) (db : Db) : list (Z * string * string) :=
  (λ kv, (kv.1, tasks.task_description kv.2, tasks.status kv.2)) <$>
    filter (λ kv, tasks.worker_id kv.2 = userId ∧ tasks.status kv.2 ≠ "completed")
           (rows (tbl_tasks db)).

(** [updateSql_report]: the SET clause, then the statement with its
    [WHERE id = ? AND worker_id = ?]. *)
Definition set_report (reportDesc savedFilePath : string) (r : tasks.row) : tasks.row :=
  tasks.mk (tasks.worker_id r) (tasks.worker_username r) (tasks.task_description r)
           "completed" (tasks.violation_comment r) (tasks.violation_timestamp r)
           (Some reportDesc) (Some savedFilePath).

Definition update_report (reportDesc savedFilePath : string) (taskId userId : Z) (db : Db) : Db :=
  with_tasks
    (alter (λ r, if decide (tasks.worker_id r = userId)
                 then set_report reportDesc savedFilePath r else r)
           taskId (tbl_tasks db)) db.

(** [updateSql_feedback] *)
Definition set_feedback (feedback : string) (r : rules.row) : rules.row :=
  rules.mk (rules.rule_text r) (Some feedback) (rules.timestamp r).

Definition update_feedback (feedback : string) (ruleId : Z) (db : Db) : Db :=
  with_rules (alter (set_feedback feedback) ruleId (tbl_rules db)) db.

End Sql.

(** ** Environment, events, runs *)

Record Env := mkEnv {
  prepare_ok : Stmt → bool;         (* sqlite3_prepare_v2(..) == SQLITE_OK *)
  step_ok : Stmt → bool;            (* sqlite3_step(..) runs the statement rather than failing *)
  create_directories_ok : bool;     (* std::filesystem::create_directories returns *)
  copy_ok : string → string → bool; (* std::filesystem::copy(from, to, ..) returns *)
  ctime_now : string;               (* ctime(&now) *)
  strftime_now : string             (* strftime(.., "%Y-%m-%d %H:%M:%S", ..) *) }.

Inductive Event :=
  | Lock                 (* std::lock_guard<std::mutex> lock(db_mutex) *)
  | Unlock               (* the guard goes out of scope *)
  | Step (q : Stmt)      (* sqlite3_step on the prepared statement *)
  | Cout (line : string)
  | Cerr (line : string).

Inductive Exit :=
  | Returned     (* the function returns to the menu *)
  | Starved      (* a prompt loop is never left *)
  | Terminated   (* an exception leaves the thread: std::terminate *).

Record Run := mkRun { exit : Exit; db_after : Db; trace : list Event }.

(** Events that happened before the rest of a run. *)
Definition after (pre : list Event) (r : Run) : Run :=
  mkRun (exit r) (db_after r) (pre ++ trace r).

(** Events that happen once the run is over (a guard leaving scope). *)
Definition finally (post : list Event) (r : Run) : Run :=
  mkRun (exit r) (db_after r) (trace r ++ post).

(** A prompt loop [while (true) { read; if (bad) { complain; continue; } break; }]:
    the complaints printed and the answer that left the loop. *)
Fixpoint ask {A B} (read : A → option B) (complaint : string) (answers : list A)
  : list Event * option B :=
  match answers with
  | [] => ([], None)
  | a :: rest =>
      match read a with
      | Some b => ([], Some b)
      | None => let '(out, r) := ask read complaint rest in (Cout complaint :: out, r)
      end
  end.

(** [std::cin >> n] followed by the test [std::cin.fail() || n < 0]. *)
Definition nonneg (a : option Z) : option Z :=
  match a with
  | Some n => if decide (n < 0) then None else Some n
  | None => None
  end.

(** [std::to_string(int)]: decimal digits, with a sign for negatives. *)
Definition to_string (n : Z) : string := pretty n.

(** [s.c_str()] taken as a text of length -1, and a text column read as a
    C string: the bytes before the first 0 byte. *)
Fixpoint c_str (s : string) : string :=
  match s with
  | EmptyString => EmptyString
  | String c rest => if Ascii.eqb c "000"%char then EmptyString else String c (c_str rest)
  end.

(** [isdigit] in the C locale. *)
Definition isdigit (c : ascii) : bool :=
  let n := nat_of_ascii c in (48 <=? n)%nat && (n <=? 57)%nat.

(** [if (!s.empty() && s.back() == '\n') s.pop_back();] *)
Fixpoint pop_newline (s : string) : string :=
  match s with
  | EmptyString => EmptyString
  | String c EmptyString => if Ascii.eqb c "010"%char then EmptyString else s
  | String c rest => String c (pop_newline rest)
  end.

(** ** user.cpp *)

Module User.

(** One row fetched by [viewTaskDetails], as the columns are read
    ([sqlite3_column_int], and [sqlite3_column_text] taken as a C string).
    [assignedTo] is only selected for the manager.  Not every column read
    reaches the screen: [assignedTo] is never printed, and for a worker
    neither [id] nor [worker_username] is. *)
Record line := mkLine {
  id : Z;
  assignedTo : option Z;
  worker_username : string;
  desc : string;
  status : string;
  violationcomment : option string;
  violationtimestamp : option string;
  worker_report : option string;
  worker_media : option string }.

Definition fetch (isManager : bool) (kv : Z * tasks.row) : line :=
  let r := kv.2 in
  mkLine kv.1 (if isManager then Some (tasks.worker_id r) else None)
         (c_str (tasks.worker_username r)) (c_str (tasks.task_description r))
         (c_str (tasks.status r))
         (c_str <$> tasks.violation_comment r) (c_str <$> tasks.violation_timestamp r)
         (c_str <$> tasks.worker_report r) (c_str <$> tasks.worker_media r).

(** [User::viewTaskDetails]: the rows stepped through, in rowid order. *)
Definition viewTaskDetails (E : Env) (db : Db) (userId : Z) (isManager : bool) : list line :=
  let sql := if isManager then sql_viewAll else sql_viewOwn in
  if prepare_ok E sql then
    if step_ok E sql then
      fetch isManager <$>
        filter (λ kv, isManager = true ∨ tasks.worker_id kv.2 = userId)
               (Sql.rows (tbl_tasks db))
    else []
  else [].

End User.

(** ** manager.cpp *)

Module Manager.

(** The insert at the end of [assignTask]; [username] and [task] are bound
    as C strings. *)
Definition assignTask_insert (E : Env) (db : Db) (workerId : Z) (username task : string) : Run :=
  if prepare_ok E insertSql then
    if step_ok E insertSql
    then mkRun Returned (Sql.insert_task workerId (c_str username) (c_str task) db)
               [Step insertSql; Cout "Task assigned successfully."]
    else mkRun Returned db [Step insertSql; Cout "Failed to assign task."]
  else mkRun Returned db [].

(** [Manager::assignTask] *)
Definition assignTask (E : Env) (db : Db) (ids : list (option Z)) (task : string) : Run :=
  let listed := if prepare_ok E queryWorkers then [Step queryWorkers] else [] in
  match ask nonneg "Invalid input. Please try again." ids with
  | (out, None) => mkRun Starved db (listed ++ out)
  | (out, Some workerId) =>
      after (listed ++ out)
        (if prepare_ok E getUserSql then
           match (if step_ok E getUserSql then Sql.select_username db workerId else None) with
           | Some column =>
               let username := c_str column in
               after [Step getUserSql] (assignTask_insert E db workerId username task)
           | None => mkRun Returned db [Step getUserSql; Cout "Worker not found."]
           end
         else assignTask_insert E db workerId "" task)
  end.

(** The validation of the new status: [status.empty() || isNumeric]
    rejects the line. *)
Definition isNumeric (status : string) : bool :=
  forallb isdigit (String.list_ascii_of_string status).

Definition read_status (status : string) : option string :=
  if bool_decide (status = "") || isNumeric status then None else Some status.

(** [Manager::reportViolation].  [comment] is declared and bound to
    [violation_comment], and nothing ever assigns it.  The status is
    checked as the whole line and bound as a C string. *)
Definition reportViolation (E : Env) (db : Db) (ids : list (option Z)) (statuses : list string) : Run :=
  let listed := if prepare_ok E getTasks then [Step getTasks] else [] in
  match ask nonneg "Invalid input. Task ID must be a non-negative number." ids with
  | (out1, None) => mkRun Starved db (listed ++ out1)
  | (out1, Some taskId) =>
      match ask read_status "Invalid input. Task status must be a non-numeric string." statuses with
      | (out2, None) => mkRun Starved db (listed ++ out1 ++ out2)
      | (out2, Some status) =>
          let comment := "" in
          let timestamp := pop_newline (c_str (ctime_now E)) in
          after (listed ++ out1 ++ out2)
            (if prepare_ok E updateSql_violation then
               if step_ok E updateSql_violation
               then mkRun Returned
                          (Sql.update_violation (c_str status) (c_str comment) (c_str timestamp)
                             taskId db)
                          [Step updateSql_violation; Cout "Task updated with violation info."]
               else mkRun Returned db [Step updateSql_violation; Cout "Failed to update task."]
             else mkRun Returned db [])
      end
  end.

Definition read_rule (rule : string) : option string :=
  if bool_decide (rule = "") then None else Some rule.

(** [Manager::addRule].  The line is checked for emptiness as a whole and
    bound as a C string. *)
Definition addRule (E : Env) (db : Db) (lines : list string) : Run :=
  match ask read_rule "Rule cannot be empty. Please enter a valid safety rule." lines with
  | (out, None) => mkRun Starved db out
  | (out, Some rule) =>
      let timestamp := strftime_now E in
      after out
        (if prepare_ok E query_addRule then
           if step_ok E query_addRule
           then mkRun Returned (Sql.insert_rule (c_str rule) (c_str timestamp) db)
                      [Step query_addRule; Cout "New rule added successfully."]
           else mkRun Returned db [Step query_addRule; Cerr "Execution failed: "]
         else mkRun Returned db [Cerr "SQL error: "])
  end.

(** [Manager::deleteRule] *)
Definition deleteRule (E : Env) (db : Db) (ids : list (option Z)) : Run :=
  if prepare_ok E listSql_rules then
    match ask nonneg "Invalid input. Rule ID must be a non-negative number." ids with
    | (out, None) => mkRun Starved db (Step listSql_rules :: out)
    | (out, Some ruleId) =>
        after (Step listSql_rules :: out)
          (if prepare_ok E deleteSql_rule then
             if step_ok E deleteSql_rule
             then mkRun Returned (Sql.delete_rule ruleId db)
                        [Step deleteSql_rule; Cout "Rule deleted successfully."]
             else mkRun Returned db [Step deleteSql_rule; Cout "Failed to delete rule."]
           else mkRun Returned db [Cout "Couldn't prepare the delete statement."])
    end
  else mkRun Returned db [Cerr "Failed to retrieve rules: "].

(** [Manager::deleteTask] *)
Definition deleteTask (E : Env) (db : Db) (ids : list (option Z)) : Run :=
  if prepare_ok E listSql_tasks then
    match ask nonneg "Invalid input. Task ID must be a non-negative number." ids with
    | (out, None) => mkRun Starved db (Step listSql_tasks :: out)
    | (out, Some taskId) =>
        after (Step listSql_tasks :: out)
          (if prepare_ok E deleteSql_task then
             if step_ok E deleteSql_task
             then mkRun Returned (Sql.delete_task taskId db)
                        [Step deleteSql_task; Cout "Task deleted successfully."]
             else mkRun Returned db [Step deleteSql_task; Cout "Failed to delete task."]
           else mkRun Returned db [Cout "Couldn't prepare the delete statement."])
    end
  else mkRun Returned db [Cerr "Failed to retrieve tasks: "].

End Manager.

(** ** worker.cpp *)

Module Worker.

(** The closure [reportTask] of [reportTaskWork], run by [reportThread];
    the caller joins the thread at once, so the closure has run to its end
    when [reportTaskWork] returns.  [db] is the database when the closure
    takes the lock, once the upload delay ([sleep_for]) is over.
    [create_directories] is outside the [try] block: when it throws, the
    thread terminates the process.  The report and the path are bound as
    C strings. *)
Definition reportTask (E : Env) (db : Db) (taskId userId : Z) (reportDesc mediaPath : string) : Run :=
  let savedFilePath := "./uploads/task_" +:+ to_string taskId +:+ "_user_" +:+ to_string userId in
  if create_directories_ok E then
    if copy_ok E mediaPath savedFilePath then
      after [Lock] (finally [Unlock]
        (if prepare_ok E updateSql_report then
           if step_ok E updateSql_report
           then mkRun Returned
                      (Sql.update_report (c_str reportDesc) (c_str savedFilePath) taskId userId db)
                      [Step updateSql_report; Cout "Task report submitted successfully."]
           else mkRun Returned db [Step updateSql_report; Cerr "Failed to submit report."]
         else mkRun Returned db [Cerr "Failed to prepare statement."]))
    else mkRun Returned db [Cerr "Failed to save media: "]
  else mkRun Terminated db [].

(** The ids pushed to [validTaskIds] by the listing loop. *)
Definition validTaskIds (E : Env) (db : Db) (userId : Z) : list Z :=
  if step_ok E query_assigned then (λ x, x.1.1) <$> Sql.select_assigned userId db else [].

(** [std::cin >> taskId] and the test
    [cin.fail() || taskId < 0 || find(validTaskIds, taskId) == end]. *)
Definition read_task (valid : list Z) (a : option Z) : option Z :=
  match a with
  | Some taskId =>
      if decide (taskId < 0) then None
      else if decide (taskId ∈ valid) then Some taskId else None
  | None => None
  end.

(** [Worker::reportTaskWork], with the database file as it is at two
    moments: [db] when the tasks are listed, and [db'] when the closure
    takes the lock again.  Between the two the lock is free, the worker
    types and the thread sleeps: another process that has the file open
    may have written it. *)
Definition reportTaskWork_at (E : Env) (db db' : Db) (userId : Z)
    (ids : list (option Z)) (reportDesc mediaPath : string) : Run :=
  if prepare_ok E query_assigned then
    let valid := validTaskIds E db userId in
    match ask (read_task valid) "Invalid or unassigned task ID. Try again." ids with
    | (out, None) => mkRun Starved db ([Lock; Step query_assigned; Unlock] ++ out)
    | (out, Some taskId) =>
        after ([Lock; Step query_assigned; Unlock] ++ out)
              (reportTask E db' taskId userId reportDesc mediaPath)
    end
  else mkRun Returned db [Lock; Cerr "Failed to fetch assigned tasks."; Unlock].

(** [Worker::reportTaskWork] when nothing else writes the file during the
    run. *)
Definition reportTaskWork (E : Env) (db : Db) (userId : Z)
    (ids : list (option Z)) (reportDesc mediaPath : string) : Run :=
  reportTaskWork_at E db db userId ids reportDesc mediaPath.

(** [Worker::GiveRuleFeedback]; the feedback is bound as a C string. *)
Definition GiveRuleFeedback (E : Env) (db : Db) (ids : list (option Z)) (feedback : string) : Run :=
  if prepare_ok E listRulesSql then
    match ask nonneg "Invalid Rule ID. Try again." ids with
    | (out, None) => mkRun Starved db (Step listRulesSql :: out)
    | (out, Some ruleId) =>
        after (Step listRulesSql :: out)
          (if prepare_ok E updateSql_feedback then
             if step_ok E updateSql_feedback
             then mkRun Returned (Sql.update_feedback (c_str feedback) ruleId db)
                        [Step updateSql_feedback; Cout "Feedback submitted successfully."]
             else mkRun Returned db [Step updateSql_feedback; Cout "Failed to submit feedback."]
           else mkRun Returned db [Cerr "Failed to prepare statement."])
    end
  else mkRun Returned db [Cerr "Failed to load rules."].

End Worker.

(** ** Lock discipline *)

(** Every statement of the trace that needs the lock is stepped while
    [db_mutex] is held; [held] is the state of the mutex at the start.
    With [need := mutating] this is the discipline "every write under the
    lock". *)
Fixpoint guarded (need : Stmt → bool) (held : bool) (t : list Event) : bool :=
  match t with
  | [] => true
  | Lock :: t' => guarded need true t'
  | Unlock :: t' => guarded need false t'
  | Step q :: t' => (held || negb (need q)) && guarded need held t'
  | _ :: t' => guarded need held t'
  end.

Definition is_lock (e : Event) : bool :=
  match e with Lock => true | _ => false end.

Definition takes_lock (t : list Event) : bool := existsb is_lock t.

(** The status lines a run printed, on either stream. *)
Definition lines (t : list Event) : list string :=
  omap (λ e, match e with Cout l | Cerr l => Some l | _ => None end) t.

(** ** Sample environment and databases *)

Definition newline : string := String "010"%char EmptyString.

(** Nothing fails; the clock reads 30 October 2026, 09:15. *)
Definition env_ok : Env :=
  mkEnv (λ _, true) (λ _, true) true (λ _ _, true)
        ("Fri Oct 30 09:15:00 2026" +:+ newline) "2026-10-30 09:15:00".

(** As [env_ok], and every file copy throws. *)
Definition env_nocopy : Env :=
  mkEnv (λ _, true) (λ _, true) true (λ _ _, false)
        ("Fri Oct 30 09:15:00 2026" +:+ newline) "2026-10-30 09:15:00".

(** Two registered users: manager 1 and worker 5; no task, no rule. *)
Definition db_staff : Db :=
  mkDb (<[1 := users.mk "boss" "x" "manager"]> (<[5 := users.mk "alice" "y" "worker"]> ∅))
       ∅ ∅ 0 0.

(** The manager has assigned "Wear PPE" to worker 5: task 1, pending. *)
Definition db_assigned : Db :=
  db_after (Manager.assignTask env_ok db_staff [Some 5] "Wear PPE").

(** Worker 5 has reported task 1. *)
Definition db_reported : Db :=
  db_after (Worker.reportTaskWork env_ok db_assigned 5 [Some 1] "PPE confirmed" "/tmp/img.jpg").

(** One rule, "Wear gloves", rowid 1. *)
Definition db_rule : Db :=
  db_after (Manager.addRule env_ok db_staff ["Wear gloves"]).

(** Neither the preparation nor the stepping of any statement fails. *)
Definition no_faults (E : Env) : Prop :=
  ∀ q, prepare_ok E q = true ∧ step_ok E q = true.

(** As [env_ok], and the lookup of the worker cannot be prepared. *)
Definition env_nolookup : Env :=
  mkEnv (λ q, match q with getUserSql => false | _ => true end) (λ _, true) true
        (λ _ _, true) ("Fri Oct 30 09:15:00 2026" +:+ newline) "2026-10-30 09:15:00".

(** ** user.cpp: accounts and rule listings

    The statements of these functions are not among [Stmt]; they have
    their own enumeration and their own oracle for the sqlite3 result
    codes.  [hashPassword] is the SHA-256 digest of OpenSSL printed in
    hexadecimal: it is a parameter.  The user name is typed and is bound
    as a C string, up to its first 0 byte; the digest is made of
    hexadecimal digits and [role] is one of the literals the
    constructors set ("worker", "manager" or nothing), so these two are
    bound whole. *)

Module Account.

Inductive Stmt :=
  | sql_registerUser      (* user.cpp:40 *)
  | sql_loginUser         (* user.cpp:69 *)
  | sql_getUserRole       (* user.cpp:106 *)
  | sql_userExists        (* user.cpp:136 *)
  | sql_getUserId         (* user.cpp:224 *)
  | query_viewRules       (* user.cpp:248 *)
  | sql_ViewRuleFeedback  (* user.cpp:273 *).

Definition sql_text (q : Stmt) : string :=
  match q with
  | sql_registerUser => "INSERT INTO users (username, password, role) VALUES (?, ?, ?);"
  | sql_loginUser => "SELECT * FROM users WHERE username=? AND password=? AND role=?;"
  | sql_getUserRole => "SELECT role FROM users WHERE username = ? AND password = ?;"
  | sql_userExists => "SELECT id FROM users WHERE username = ? AND password = ?"
  | sql_getUserId => "SELECT id FROM users WHERE username = ? AND password = ?;"
  | query_viewRules => "SELECT rule_text, timestamp FROM rules;"
  | sql_ViewRuleFeedback => "SELECT id, rule_text, feedback FROM rules"
  end.

Record Faults := mkFaults {
  prepares : Stmt → bool;   (* sqlite3_prepare_v2(..) == SQLITE_OK *)
  steps : Stmt → bool       (* sqlite3_step(..) runs the statement rather than failing *) }.

(** [username TEXT UNIQUE]: an insert of a name some row has fails. *)
Definition username_taken (username : string) (db : Db) : bool :=
  bool_decide (Exists (λ kv, users.username kv.2 = username) (map_to_list (tbl_users db))).

(** The insert of [registerUser].  No statement of the program deletes a
    user, so the largest rowid the table ever held is the largest it
    holds. *)
Definition insert_user (username hashed role : string) (db : Db) : Db :=
  mkDb (<[Sql.next_rowid 0 (tbl_users db) := users.mk username hashed role]> (tbl_users db))
       (tbl_tasks db) (tbl_rules db) (seq_tasks db) (seq_rules db).

(** Rows selected by [WHERE username = ? AND password = ?], for the values
    bound. *)
Definition matching (username hashed : string) (db : Db) : list (Z * users.row) :=
  filter (λ kv, users.username kv.2 = username ∧ users.password kv.2 = hashed)
         (Sql.rows (tbl_users db)).

Section Hashed.

Variable hashPassword : string → string.

(** [User::registerUser]; [role] is the member set by the constructor. *)
Definition registerUser (F : Faults) (db : Db) (role username password : string)
  : bool * Db * list Event :=
  if bool_decide (username = "") || bool_decide (password = "") then
    (false, db, [Cerr "Username and password cannot be empty."])
  else
    let hashed := hashPassword password in
    if prepares F sql_registerUser then
      if steps F sql_registerUser && negb (username_taken (c_str username) db)
      then (true, insert_user (c_str username) hashed role db, [])
      else (false, db, [])
    else (false, db, [Cerr "Prepare failed: "]).

(** [User::loginUser] *)
Definition loginUser (F : Faults) (db : Db) (role username password : string)
  : bool * list Event :=
  if bool_decide (username = "") || bool_decide (password = "") then
    (false, [Cerr "Username and password cannot be empty."])
  else
    let hashed := hashPassword password in
    if prepares F sql_loginUser then
      (steps F sql_loginUser
       && bool_decide (Exists (λ kv, users.role kv.2 = role)
                              (matching (c_str username) hashed db)), [])
    else (false, [Cerr "Prepare failed: "]).

(** [User::getUserRole] *)
Definition getUserRole (F : Faults) (db : Db) (username password : string)
  : string * list Event :=
  let hashed := hashPassword password in
  if prepares F sql_getUserRole then
    match (if steps F sql_getUserRole then head (matching (c_str username) hashed db)
           else None) with
    | Some kv => (users.role kv.2, [])
    | None => ("none", [])
    end
  else ("none", [Cerr "SQL error in getUserRole: "]).

(** [User::userExists] *)
Definition userExists (F : Faults) (db : Db) (username password : string) : bool :=
  let hashed := hashPassword password in
  if prepares F sql_userExists then
    steps F sql_userExists && bool_decide (matching (c_str username) hashed db ≠ [])
  else false.

(** [User::getUserId] *)
Definition getUserId (F : Faults) (db : Db) (username password : string)
  : Z * list Event :=
  let hashed := hashPassword password in
  if prepares F sql_getUserId then
    match (if steps F sql_getUserId then head (matching (c_str username) hashed db)
           else None) with
    | Some kv => (kv.1, [])
    | None => (-1, [Cerr "User not found while retrieving ID."])
    end
  else (-1, [Cerr "Failed to prepare statement for getting user ID: "]).

End Hashed.

(** [User::viewRules]: the rows stepped through, in rowid order, with the
    texts printed. *)
Definition viewRules (F : Faults) (db : Db) : list (string * string) * list Event :=
  if prepares F query_viewRules then
    if steps F query_viewRules
    then ((λ kv, (c_str (rules.rule_text kv.2), c_str (rules.timestamp kv.2)))
            <$> Sql.rows (tbl_rules db), [])
    else ([], [Cerr "Execution failed: "])
  else ([], [Cerr "SQL error: "]).

(** [User::ViewRuleFeedback]: the rows stepped through, in rowid order,
    with the id and the texts printed. *)
Definition ViewRuleFeedback (F : Faults) (db : Db) : list (Z * string * string) * list Event :=
  if prepares F sql_ViewRuleFeedback then
    if steps F sql_ViewRuleFeedback
    then ((λ kv, (kv.1, c_str (rules.rule_text kv.2),
                  default "No feedback yet." (c_str <$> rules.feedback kv.2)))
            <$> Sql.rows (tbl_rules db), [])
    else ([], [])
  else ([], [Cerr "Failed to prepare statement: "]).

End Account.

(** No account statement fails. *)
Definition faults_none : Account.Faults := Account.mkFaults (λ _, true) (λ _, true).

(** A stand-in for the digest in the examples: the password, reversed. *)
Definition hash_sample (password : string) : string :=
  String.string_of_list_ascii (reverse (String.list_ascii_of_string password)).

(** ** code.cpp: registration, login and the menus

    What is typed during a visit to a menu is a list of entries: the
    number typed at "Enter choice:" and the answers given inside the
    operation chosen ([ids] at its id prompt, [texts] at its [getline]
    prompts, in order; a line that is not there reads as empty).  No
    other process writes the database file during a visit.  A task
    listing leaves its statement in the trace; the rule listings, whose
    statements are not among [Stmt], leave their error lines only. *)

Module Main.

Record Answers := mkAnswers { ids : list (option Z); texts : list string }.

Definition text (n : nat) (a : Answers) : string := default "" (texts a !! n).

(** The [do { .. } while (choice != 0)] of both menus; [act] is the
    [switch].  An operation that is never left, or that ends the process,
    ends the run. *)
Fixpoint menu (act : Db → Z → Answers → Run) (db : Db) (session : list (Z * Answers)) : Run :=
  match session with
  | [] => mkRun Starved db []
  | (choice, a) :: rest =>
      let r := act db choice a in
      match exit r with
      | Returned =>
          if decide (choice = 0) then r
          else after (trace r) (menu act (db_after r) rest)
      | _ => r
      end
  end.

(** What [viewTaskDetails] leaves in the trace. *)
Definition viewed (E : Env) (isManager : bool) : list Event :=
  let sql := if isManager then sql_viewAll else sql_viewOwn in
  if prepare_ok E sql then [Step sql] else [Cerr "Failed to prepare statement: "].

(** The [switch] of [handleWorkerMenu]. *)
Definition workerChoice (F : Account.Faults) (E : Env) (userId : Z)
    (db : Db) (choice : Z) (a : Answers) : Run :=
  match choice with
  | 1 => mkRun Returned db (viewed E false)
  | 2 => Worker.reportTaskWork E db userId (ids a) (text 0 a) (text 1 a)
  | 3 => mkRun Returned db (Account.viewRules F db).2
  | 4 => Worker.GiveRuleFeedback E db (ids a) (text 0 a)
  | 5 => mkRun Returned db (Account.ViewRuleFeedback F db).2
  | 0 => mkRun Returned db [Cout "Logging out..."]
  | _ => mkRun Returned db [Cout "Invalid choice!"]
  end.

(** The [switch] of [handleManagerMenu]. *)
Definition managerChoice (F : Account.Faults) (E : Env)
    (db : Db) (choice : Z) (a : Answers) : Run :=
  match choice with
  | 1 => Manager.assignTask E db (ids a) (text 0 a)
  | 2 => Manager.reportViolation E db (ids a) (texts a)
  | 3 => mkRun Returned db (Account.viewRules F db).2
  | 4 => Manager.addRule E db (texts a)
  | 5 => mkRun Returned db (Account.ViewRuleFeedback F db).2
  | 6 => mkRun Returned db (viewed E true)
  | 7 => Manager.deleteTask E db (ids a)
  | 8 => Manager.deleteRule E db (ids a)
  | 0 => mkRun Returned db [Cout "Logging out..."]
  | _ => mkRun Returned db [Cout "Invalid choice!"]
  end.

(** The role prompt of [handleRegistration], with its two complaints. *)
Fixpoint ask_role (roles : list string) : list Event * option string :=
  match roles with
  | [] => ([], None)
  | role :: rest =>
      if bool_decide (role = "") then
        let '(out, r) := ask_role rest in
        (Cout "Role cannot be empty. Please enter a valid role." :: out, r)
      else if bool_decide (role ≠ "worker") && bool_decide (role ≠ "manager") then
        let '(out, r) := ask_role rest in
        (Cout "Invalid role. Please enter 'worker' or 'manager'." :: out, r)
      else ([], Some role)
  end.

Definition read_nonempty (line : string) : option string :=
  if bool_decide (line = "") then None else Some line.

Section Hashed.

Variable hashPassword : string → string.

(** [handleWorkerMenu] *)
Definition handleWorkerMenu (F : Account.Faults) (E : Env) (db : Db)
    (username password : string) (session : list (Z * Answers)) : Run :=
  let '(userId, out) := Account.getUserId hashPassword F db username password in
  after out (menu (workerChoice F E userId) db session).

(** [handleManagerMenu] *)
Definition handleManagerMenu (F : Account.Faults) (E : Env) (db : Db)
    (session : list (Z * Answers)) : Run :=
  menu (managerChoice F E) db session.

(** One branch of [handleRegistration]: a [Worker] or a [Manager] object
    checks and registers. *)
Definition register_as (F : Account.Faults) (db : Db) (role username password : string) : Run :=
  if Account.userExists hashPassword F db username password then
    mkRun Returned db [Cout "User already exists with these credentials!"]
  else
    let '(ok, db', out) := Account.registerUser hashPassword F db role username password in
    if ok then mkRun Returned db' (out ++ [Cout "Registration Successfull!"])
    else mkRun Returned db' (out ++ [Cout "Registration failed!"]).

(** [handleRegistration] *)
Definition handleRegistration (F : Account.Faults) (db : Db)
    (username password : string) (roles : list string) : Run :=
  match ask_role roles with
  | (out, None) => mkRun Starved db out
  | (out, Some role) =>
      after out
        (if bool_decide (role = "worker") then register_as F db "worker" username password
         else if bool_decide (role = "manager") then register_as F db "manager" username password
         else mkRun Returned db [Cout "Invalid role entered!"])
  end.

(** [handleLogin] *)
Definition handleLogin (F : Account.Faults) (E : Env) (db : Db)
    (username password : string) (session : list (Z * Answers)) : Run :=
  let '(role, out) := Account.getUserRole hashPassword F db username password in
  after out
    (if bool_decide (role = "worker") then
       let '(ok, out') := Account.loginUser hashPassword F db "worker" username password in
       if ok then
         after (out' ++ [Cout "Logged in successfully!"])
               (handleWorkerMenu F E db username password session)
       else mkRun Returned db (out' ++ [Cout "Login failed!"])
     else if bool_decide (role = "manager") then
       let '(ok, out') := Account.loginUser hashPassword F db "manager" username password in
       if ok then
         after (out' ++ [Cout "Logged in successfully!"])
               (handleManagerMenu F E db session)
       else mkRun Returned db (out' ++ [Cout "Login failed!"])
     else mkRun Returned db [Cout "Invalid credentials!"]).

(** One pass through the loop of [main]: the choice, the answers to the
    user name and password prompts, to the role prompt of a registration,
    and what is typed in the menu after a login. *)
Record Visit := mkVisit {
  choice : Z;
  usernames : list string;
  passwords : list string;
  roles : list string;
  session : list (Z * Answers) }.

(** [main], once the database is open and the tables are set up. *)
Fixpoint main (F : Account.Faults) (E : Env) (db : Db) (visits : list Visit) : Run :=
  match visits with
  | [] => mkRun Starved db []
  | v :: rest =>
      if decide (choice v = 0) then mkRun Returned db [Cout "Exiting..."]
      else
        match ask read_nonempty "Username cannot be empty. Please enter a valid username."
                  (usernames v) with
        | (out1, None) => mkRun Starved db out1
        | (out1, Some username) =>
            match ask read_nonempty "Password cannot be empty. Please enter a valid password."
                      (passwords v) with
            | (out2, None) => mkRun Starved db (out1 ++ out2)
            | (out2, Some password) =>
                let r := match choice v with
                         | 1 => handleRegistration F db username password (roles v)
                         | 2 => handleLogin F E db username password (session v)
                         | _ => mkRun Returned db [Cout "Invalid choice!"]
                         end in
                match exit r with
                | Returned => after (out1 ++ out2 ++ trace r) (main F E (db_after r) rest)
                | _ => after (out1 ++ out2) r
                end
            end
        end
  end.

End Hashed.

End Main.

(** ** Invariants of the tables *)

(** [username TEXT UNIQUE] *)
Definition unique_usernames (db : Db) : Prop :=
  ∀ k1 k2 u1 u2, tbl_users db !! k1 = Some u1 → tbl_users db !! k2 = Some u2 →
                 users.username u1 = users.username u2 → k1 = k2.

(** [sqlite_sequence] is not below any rowid of its table. *)
Definition sequence_ok (db : Db) : Prop :=
  (∀ k row, tbl_tasks db !! k = Some row → k ≤ seq_tasks db)
  ∧ (∀ k row, tbl_rules db !! k = Some row → k ≤ seq_rules db).

(** What a worker's operations may turn a database into: the users, the
    set of task ids and the set of rule ids stay; a task of another
    worker stays as it is; a task keeps its assignment and its violation
    columns; a rule keeps its text and timestamp. *)
Definition worker_changes (userId : Z) (db db' : Db) : Prop :=
  tbl_users db' = tbl_users db
  ∧ dom (tbl_tasks db') = dom (tbl_tasks db)
  ∧ dom (tbl_rules db') = dom (tbl_rules db)
  ∧ (∀ k row, tbl_tasks db !! k = Some row → tasks.worker_id row ≠ userId →
              tbl_tasks db' !! k = Some row)
  ∧ (∀ k row row', tbl_tasks db !! k = Some row → tbl_tasks db' !! k = Some row' →
       tasks.worker_id row' = tasks.worker_id row
       ∧ tasks.worker_username row' = tasks.worker_username row
       ∧ tasks.task_description row' = tasks.task_description row
       ∧ tasks.violation_comment row' = tasks.violation_comment row
       ∧ tasks.violation_timestamp row' = tasks.violation_timestamp row)
  ∧ (∀ k r r', tbl_rules db !! k = Some r → tbl_rules db' !! k = Some r' →
       rules.rule_text r' = rules.rule_text r ∧ rules.timestamp r' = rules.timestamp r).

(** What a manager's operations may turn a database into: the users
    stay; [sqlite_sequence] stays above the rowids and does not go down;
    a task that was there before keeps its assignment and what the worker
    reported; a rule that was there before is as it was. *)
Definition manager_changes (db db' : Db) : Prop :=
  tbl_users db' = tbl_users db
  ∧ sequence_ok db'
  ∧ seq_tasks db ≤ seq_tasks db' ∧ seq_rules db ≤ seq_rules db'
  ∧ (∀ k row', tbl_tasks db' !! k = Some row' → k ≤ seq_tasks db →
       ∃ row, tbl_tasks db !! k = Some row
              ∧ tasks.worker_id row' = tasks.worker_id row
              ∧ tasks.worker_username row' = tasks.worker_username row
              ∧ tasks.task_description row' = tasks.task_description row
              ∧ tasks.worker_report row' = tasks.worker_report row
              ∧ tasks.worker_media row' = tasks.worker_media row)
  ∧ (∀ k r', tbl_rules db' !! k = Some r' → k ≤ seq_rules db → tbl_rules db !! k = Some r').

(** * Properties *)

(** ** C strings and rowid order *)

(** A text without a 0 byte is bound whole. *)
Lemma c_str_whole s : "000"%char ∉ String.list_ascii_of_string s → c_str s = s.
Proof.
  induction s as [|c s IH]; simpl; [done|]. rewrite not_elem_of_cons. intros [Hc Hs].
  destruct (Ascii.eqb c "000") eqn:Heq.
  - apply Ascii.eqb_eq in Heq. by subst.
  - by rewrite IH.
Qed.

Lemma c_str_idemp s : c_str (c_str s) = c_str s.
Proof.
  induction s as [|c s IH]; simpl; [done|].
  destruct (Ascii.eqb c "000") eqn:Heq; simpl; [done|]. by rewrite Heq, IH.
Qed.

Lemma c_str_app s t : c_str s = s → c_str (s +:+ t) = s +:+ c_str t.
Proof.
  induction s as [|c s IH]; simpl; [done|].
  destruct (Ascii.eqb c "000"); [done|]. intros [= Hs]. by rewrite (IH Hs).
Qed.

Lemma c_str_app_whole s t : c_str s = s → c_str t = t → c_str (s +:+ t) = s +:+ t.
Proof. intros Hs Ht. by rewrite (c_str_app s t Hs), Ht. Qed.

Lemma c_str_pop_newline s : c_str s = s → c_str (pop_newline s) = pop_newline s.
Proof.
  induction s as [|c s IH]; [done|]. intros Hs. simpl in Hs.
  destruct (Ascii.eqb c "000") eqn:Hc; [done|]. injection Hs as Hs. specialize (IH Hs).
  destruct s as [|d s].
  - simpl. destruct (Ascii.eqb c "010"); simpl; [done|by rewrite Hc].
  - assert (pop_newline (String c (String d s)) = String c (pop_newline (String d s)))
      as -> by done.
    cbn [c_str]. rewrite Hc. by rewrite IH.
Qed.

(** [std::to_string] writes a sign and digits: no 0 byte. *)
Lemma pretty_N_go_c_str x s : c_str s = s → c_str (pretty_N_go x s) = pretty_N_go x s.
Proof.
  revert s. induction (N.lt_wf_0 x) as [x _ IH]; intros s Hs.
  assert (x = 0 ∨ 0 < x)%N as [->|Hpos] by lia; [by rewrite pretty_N_go_0|].
  rewrite pretty_N_go_step by done. apply IH; [by apply N.div_lt|].
  unfold pretty_N_char. repeat case_match; simpl; by rewrite Hs.
Qed.

Lemma to_string_c_str n : c_str (to_string n) = to_string n.
Proof.
  assert (Hpos : ∀ p : positive, c_str (pretty p) = pretty p).
  { intros p. unfold pretty, pretty_positive, pretty, pretty_N.
    case_decide; [done|]. by apply pretty_N_go_c_str. }
  unfold to_string, pretty, pretty_Z. destruct n as [|p|p]; [done|apply Hpos|].
  by apply (c_str_app_whole "-").
Qed.

Lemma savedFilePath_c_str taskId userId :
  c_str ("./uploads/task_" +:+ to_string taskId +:+ "_user_" +:+ to_string userId)
  = "./uploads/task_" +:+ to_string taskId +:+ "_user_" +:+ to_string userId.
Proof.
  apply (c_str_app_whole "./uploads/task_"); [done|].
  apply c_str_app_whole; [apply to_string_c_str|].
  apply (c_str_app_whole "_user_"); [done|apply to_string_c_str].
Qed.

(** A row is stepped through exactly when the table holds it, and once. *)
Lemma elem_of_rows {A} (m : gmap Z A) k x : (k, x) ∈ Sql.rows m ↔ m !! k = Some x.
Proof. unfold Sql.rows. rewrite merge_sort_Permutation. apply elem_of_map_to_list. Qed.

Lemma NoDup_rows {A} (m : gmap Z A) : NoDup (Sql.rows m).
Proof. unfold Sql.rows. rewrite merge_sort_Permutation. apply NoDup_map_to_list. Qed.

(** ** Prompt loops, traces and tables *)

Lemma ask_complaints {A B} (read : A → option B) complaint answers e :
  e ∈ (ask read complaint answers).1 → e = Cout complaint.
Proof.
  induction answers as [|a rest IH]; simpl.
  - by rewrite elem_of_nil.
  - destruct (read a); simpl; [by rewrite elem_of_nil|].
    destruct (ask read complaint rest) as [out r]; simpl in *.
    rewrite elem_of_cons. intros [->|?]; auto.
Qed.

Lemma ask_single {A B} (read : A → option B) complaint a :
  ask read complaint [a] =
    match read a with Some b => ([], Some b) | None => ([Cout complaint], None) end.
Proof. simpl. by destruct (read a). Qed.

Lemma nonneg_Some n : 0 ≤ n → nonneg (Some n) = Some n.
Proof. intros. unfold nonneg. destruct (decide (n < 0)); [lia|done]. Qed.

Lemma with_tasks_same db : with_tasks (tbl_tasks db) db = db.
Proof. by destruct db. Qed.

Lemma with_rules_same db : with_rules (tbl_rules db) db = db.
Proof. by destruct db. Qed.

(** An UPDATE whose WHERE clause selects no row leaves the table as it is. *)
Lemma alter_unmatched {A} (f : A → A) (k : Z) (m : gmap Z A) :
  (∀ x, m !! k = Some x → f x = x) → alter f k m = m.
Proof.
  intros Hf. apply map_eq. intros j. destruct (decide (k = j)) as [<-|Hne].
  - rewrite lookup_alter_eq. destruct (m !! k) as [x|] eqn:Hk; simpl; [|done].
    by rewrite (Hf x).
  - by rewrite lookup_alter_ne.
Qed.

(** Every id the listing loop of [reportTaskWork] collects is the rowid of
    a task of that worker which is not completed. *)
Lemma validTaskIds_assigned E db userId taskId :
  taskId ∈ Worker.validTaskIds E db userId →
  ∃ row, tbl_tasks db !! taskId = Some row ∧ tasks.worker_id row = userId
         ∧ tasks.status row ≠ "completed".
Proof.
  unfold Worker.validTaskIds, Sql.select_assigned.
  destruct (step_ok E query_assigned); [|by rewrite elem_of_nil].
  rewrite list_elem_of_fmap. intros ([[k d] s] & -> & Hin).
  apply list_elem_of_fmap in Hin as ([k' row] & Heq & Hin).
  apply list_elem_of_filter in Hin as [[Hw Hs] Hin].
  apply elem_of_rows in Hin. simpl in *.
  injection Heq as -> _ _. eauto.
Qed.

Lemma update_report_lookup reportDesc savedFilePath taskId userId db row :
  tbl_tasks db !! taskId = Some row → tasks.worker_id row = userId →
  tbl_tasks (Sql.update_report reportDesc savedFilePath taskId userId db) !! taskId
  = Some (Sql.set_report reportDesc savedFilePath row).
Proof.
  intros Hrow Hw. unfold Sql.update_report. simpl.
  rewrite lookup_alter_eq, Hrow. simpl. by rewrite decide_True.
Qed.

Lemma update_report_unmatched reportDesc savedFilePath taskId userId db :
  (∀ row, tbl_tasks db !! taskId = Some row → tasks.worker_id row ≠ userId) →
  Sql.update_report reportDesc savedFilePath taskId userId db = db.
Proof.
  intros Hno. unfold Sql.update_report.
  rewrite alter_unmatched; [apply with_tasks_same|].
  intros row Hrow. rewrite decide_False; [done|]. by apply Hno.
Qed.

(** Membership in a trace that is a literal list. *)
Ltac trace_in H :=
  simpl in H;
  repeat first [ rewrite elem_of_cons in H | rewrite elem_of_nil in H
               | rewrite elem_of_app in H ];
  try (intuition discriminate).

(** The same, with [Hout] telling that a part of the trace holds nothing
    but the complaints of a prompt loop. *)
Ltac trace_in_loop Hout H :=
  simpl in H;
  repeat first [ rewrite elem_of_cons in H | rewrite elem_of_nil in H
               | rewrite elem_of_app in H ];
  destruct_or? H; try discriminate H; try (apply Hout in H; discriminate H);
  try done.

(** ** Submit: [Worker::reportTaskWork] *)

(** When the worker picks one of the listed ids and neither the file
    system nor SQLite fails, the run returns and announces its success. *)
Lemma reportTaskWork_announces E db taskId userId reportDesc mediaPath :
  prepare_ok E query_assigned = true →
  0 ≤ taskId → taskId ∈ Worker.validTaskIds E db userId →
  create_directories_ok E = true →
  copy_ok E mediaPath ("./uploads/task_" +:+ to_string taskId +:+ "_user_" +:+ to_string userId) = true →
  prepare_ok E updateSql_report = true → step_ok E updateSql_report = true →
  exit (Worker.reportTaskWork E db userId [Some taskId] reportDesc mediaPath) = Returned
  ∧ lines (trace (Worker.reportTaskWork E db userId [Some taskId] reportDesc mediaPath))
    = ["Task report submitted successfully."].
Proof.
  intros Hl Hid Hin Hd Hc Hp Hs. unfold Worker.reportTaskWork, Worker.reportTaskWork_at, Worker.reportTask.
  rewrite Hl, ask_single. unfold Worker.read_task.
  rewrite decide_False by lia. rewrite decide_True by done.
  by rewrite Hd, Hc, Hp, Hs.
Qed.

(** C1.  A report submission that announces its success (the listing, the
    media copy and the UPDATE all went through, and the worker's answer to
    the prompt was accepted), for a task that is a row of this worker when
    the closure commits and a report without a 0 byte, leaves the task
    with status "completed", the entered report text, and the media path
    "./uploads/task_<taskId>_user_<userId>", whatever path the worker
    typed; the other columns of the row keep their values. *)
Theorem reportTaskWork_completes E db db' taskId userId reportDesc mediaPath row :
  Cout "Task report submitted successfully."
    ∈ trace (Worker.reportTaskWork_at E db db' userId [Some taskId] reportDesc mediaPath) →
  tbl_tasks db' !! taskId = Some row → tasks.worker_id row = userId →
  "000"%char ∉ String.list_ascii_of_string reportDesc →
  tbl_tasks (db_after (Worker.reportTaskWork_at E db db' userId [Some taskId] reportDesc mediaPath))
    !! taskId
  = Some (tasks.mk (tasks.worker_id row) (tasks.worker_username row)
            (tasks.task_description row) "completed"
            (tasks.violation_comment row) (tasks.violation_timestamp row)
            (Some reportDesc)
            (Some ("./uploads/task_" +:+ to_string taskId +:+ "_user_" +:+ to_string userId)))
  ∧ "./uploads/task_" +:+ to_string taskId +:+ "_user_" +:+ to_string userId ≠ "".
Proof.
  intros Hok Hrow Hw Hnul. split; [|done]. revert Hok.
  unfold Worker.reportTaskWork_at.
  destruct (prepare_ok E query_assigned); [|intros H; trace_in H].
  rewrite ask_single.
  destruct (Worker.read_task _ _) as [t|] eqn:Hread; [|intros H; trace_in H].
  assert (t = taskId) as ->.
  { unfold Worker.read_task in Hread. by repeat case_decide; simplify_eq. }
  unfold Worker.reportTask.
  destruct (create_directories_ok E); [|intros H; trace_in H].
  destruct (copy_ok E mediaPath _); [|intros H; trace_in H].
  destruct (prepare_ok E updateSql_report); [|intros H; trace_in H].
  destruct (step_ok E updateSql_report); [|intros H; trace_in H].
  intros _. unfold after, finally. cbn [db_after].
  rewrite (update_report_lookup _ _ _ _ _ row) by done.
  unfold Sql.set_report. by rewrite (c_str_whole _ Hnul), savedFilePath_c_str.
Qed.

Lemma reportTaskWork_completes_witness :
  Cout "Task report submitted successfully."
    ∈ trace (Worker.reportTaskWork_at env_ok db_assigned db_assigned 5 [Some 1]
               "PPE confirmed" "/tmp/img.jpg")
  ∧ tbl_tasks db_reported !! 1
    = Some (tasks.mk 5 "alice" "Wear PPE" "completed" None None
              (Some "PPE confirmed") (Some "./uploads/task_1_user_5")).
Proof.
  assert (Hin : Cout "Task report submitted successfully."
    ∈ trace (Worker.reportTaskWork_at env_ok db_assigned db_assigned 5 [Some 1]
               "PPE confirmed" "/tmp/img.jpg")).
  { vm_compute. repeat constructor. }
  split; [exact Hin|].
  apply (reportTaskWork_completes env_ok db_assigned db_assigned 1 5 "PPE confirmed"
           "/tmp/img.jpg" (tasks.mk 5 "alice" "Wear PPE" "pending" None None None None) Hin);
    [reflexivity | reflexivity |].
  vm_compute. intros H. repeat (inversion H as [|? ? ? H']; subst; clear H; rename H' into H).
Defined.

(** C2.  When the media transfer fails (creating the upload directory or
    the copy from the given path throws), the submission writes nothing:
    the whole database, and so the task row, its status and every report
    column, is what it was, and the UPDATE is never stepped. *)
Theorem reportTaskWork_transfer_fails E db userId ids reportDesc mediaPath :
  create_directories_ok E = false ∨ (∀ savedFilePath, copy_ok E mediaPath savedFilePath = false) →
  db_after (Worker.reportTaskWork E db userId ids reportDesc mediaPath) = db
  ∧ (Step updateSql_report ∉ trace (Worker.reportTaskWork E db userId ids reportDesc mediaPath))
  ∧ (Cout "Task report submitted successfully."
       ∉ trace (Worker.reportTaskWork E db userId ids reportDesc mediaPath)).
Proof.
  intros Hfail. unfold Worker.reportTaskWork, Worker.reportTaskWork_at.
  destruct (prepare_ok E query_assigned).
  2: { split; [done|]. split; intros H; trace_in H. }
  pose proof (ask_complaints (Worker.read_task (Worker.validTaskIds E db userId))
                "Invalid or unassigned task ID. Try again." ids) as Hout.
  destruct (ask _ _ ids) as [out [taskId|]]; simpl in Hout.
  - assert (Hrun : Worker.reportTask E db taskId userId reportDesc mediaPath
                   = mkRun Terminated db []
                   ∨ Worker.reportTask E db taskId userId reportDesc mediaPath
                     = mkRun Returned db [Cerr "Failed to save media: "]).
    { unfold Worker.reportTask. destruct (create_directories_ok E); [|by left].
      destruct Hfail as [?|Hcopy]; [done|]. rewrite Hcopy. by right. }
    destruct Hrun as [-> | ->]; (split; [done|]);
      split; intros H; trace_in_loop Hout H.
  - split; [done|]. split; intros H; trace_in_loop Hout H.
Qed.

Lemma reportTaskWork_transfer_fails_witness :
  db_after (Worker.reportTaskWork env_nocopy db_assigned 5 [Some 1] "PPE confirmed" "/tmp/img.jpg")
  = db_assigned.
Proof.
  apply (reportTaskWork_transfer_fails env_nocopy db_assigned 5 [Some 1]
           "PPE confirmed" "/tmp/img.jpg").
  right. intros savedFilePath. reflexivity.
Defined.

(** C5, as the code has it.  When the task is not assigned to the worker
    (no row with that id, or a row of another worker), the commit changes
    no row; it raises no error: with the copy and the statement going
    through, the only line printed is the success line. *)
Theorem reportTask_not_assigned E db taskId userId reportDesc mediaPath :
  (∀ row, tbl_tasks db !! taskId = Some row → tasks.worker_id row ≠ userId) →
  db_after (Worker.reportTask E db taskId userId reportDesc mediaPath) = db
  ∧ (create_directories_ok E = true →
     copy_ok E mediaPath ("./uploads/task_" +:+ to_string taskId +:+ "_user_" +:+ to_string userId) = true →
     prepare_ok E updateSql_report = true → step_ok E updateSql_report = true →
     lines (trace (Worker.reportTask E db taskId userId reportDesc mediaPath))
     = ["Task report submitted successfully."]).
Proof.
  intros Hno. unfold Worker.reportTask. split.
  - destruct (create_directories_ok E); [|done].
    destruct (copy_ok E mediaPath _); [|done].
    destruct (prepare_ok E updateSql_report); [|done].
    destruct (step_ok E updateSql_report); [|done].
    unfold after, finally. cbn [db_after]. by apply update_report_unmatched.
  - by intros -> -> -> ->.
Qed.

Lemma reportTask_not_assigned_witness :
  db_after (Worker.reportTask env_ok db_assigned 1 6 "PPE confirmed" "/tmp/img.jpg") = db_assigned
  ∧ lines (trace (Worker.reportTask env_ok db_assigned 1 6 "PPE confirmed" "/tmp/img.jpg"))
    = ["Task report submitted successfully."].
Proof.
  assert (Hno : ∀ row, tbl_tasks db_assigned !! 1 = Some row → tasks.worker_id row ≠ 6).
  { intros row Hrow. vm_compute in Hrow. injection Hrow as <-. simpl. lia. }
  destruct (reportTask_not_assigned env_ok db_assigned 1 6 "PPE confirmed" "/tmp/img.jpg" Hno)
    as [Hdb Hlines].
  split; [exact Hdb|]. by apply Hlines.
Defined.

(** C5 as stated fails: worker 6 commits a report for task 1, which is
    assigned to worker 5; the run does not fail, it prints the success
    line. *)
Lemma reportTask_not_assigned_counterexample :
  tasks.worker_id <$> tbl_tasks db_assigned !! 1 = Some 5
  ∧ ¬ (Cout "Task report submitted successfully."
         ∉ trace (Worker.reportTask env_ok db_assigned 1 6 "PPE confirmed" "/tmp/img.jpg")).
Proof. split; [reflexivity|]. intros H. apply H. vm_compute. repeat constructor. Qed.

(** ** ReportViolation: [Manager::reportViolation] *)

Lemma isdigit_digit c :
  c ∈ String.list_ascii_of_string "0123456789" → isdigit c = true.
Proof.
  simpl. rewrite !elem_of_cons, elem_of_nil.
  intros H; destruct_or? H; subst; done.
Qed.

Lemma isNumeric_digits s :
  Forall (λ c, c ∈ String.list_ascii_of_string "0123456789") (String.list_ascii_of_string s) →
  Manager.isNumeric s = true.
Proof.
  unfold Manager.isNumeric. induction 1 as [|c l Hc _ IH]; simpl; [done|].
  by rewrite (isdigit_digit c Hc), IH.
Qed.

Lemma read_status_rejects s :
  s = "" ∨ Forall (λ c, c ∈ String.list_ascii_of_string "0123456789") (String.list_ascii_of_string s) →
  Manager.read_status s = None.
Proof.
  unfold Manager.read_status. intros [->|Hd]; [done|].
  rewrite (isNumeric_digits s Hd). by rewrite orb_true_r.
Qed.

(** A prompt loop that is given only answers it rejects complains once per
    answer and is not left. *)
Lemma ask_all_rejected {A B} (read : A → option B) complaint answers :
  Forall (λ a, read a = None) answers →
  ask read complaint answers = (replicate (length answers) (Cout complaint), None).
Proof.
  induction 1 as [|a rest Ha _ IH]; simpl; [done|]. by rewrite Ha, IH.
Qed.

Lemma lines_complaints n complaint :
  lines (replicate n (Cout complaint)) = replicate n complaint.
Proof. induction n as [|n IH]; simpl; [done|]. unfold lines in *. simpl. by rewrite IH. Qed.

Lemma elem_of_complaints n complaint e :
  e ∈ replicate n (Cout complaint) → e = Cout complaint.
Proof. intros H. by apply elem_of_replicate in H as [-> _]. Qed.

(** A rejected status is passed over: the run goes on with the next
    answer, one complaint later, and ends with the same database. *)
Lemma reportViolation_skips_rejected E db ids s statuses :
  Manager.read_status s = None →
  db_after (Manager.reportViolation E db ids (s :: statuses))
  = db_after (Manager.reportViolation E db ids statuses)
  ∧ exit (Manager.reportViolation E db ids (s :: statuses))
    = exit (Manager.reportViolation E db ids statuses).
Proof.
  intros Hs. unfold Manager.reportViolation.
  destruct (ask nonneg _ ids) as [out1 [taskId|]]; [|done].
  simpl. rewrite Hs. by destruct (ask Manager.read_status _ statuses) as [out2 [status|]].
Qed.

(** C4.  Statuses that are empty or made of digits only are each answered
    with the validation message and never written: whatever the task id,
    the database is what it was and the UPDATE is not stepped. *)
Theorem reportViolation_rejects_numeric E db taskId statuses :
  0 ≤ taskId →
  Forall (λ s, s = "" ∨ Forall (λ c, c ∈ String.list_ascii_of_string "0123456789")
                               (String.list_ascii_of_string s)) statuses →
  db_after (Manager.reportViolation E db [Some taskId] statuses) = db
  ∧ lines (trace (Manager.reportViolation E db [Some taskId] statuses))
    = replicate (length statuses) "Invalid input. Task status must be a non-numeric string."
  ∧ (Step updateSql_violation ∉ trace (Manager.reportViolation E db [Some taskId] statuses)).
Proof.
  intros Hid Hrej. unfold Manager.reportViolation.
  rewrite ask_single, (nonneg_Some _ Hid).
  rewrite ask_all_rejected
    by (eapply Forall_impl; [exact Hrej|]; intros s; apply read_status_rejects).
  cbn [db_after trace]. split; [done|].
  destruct (prepare_ok E getTasks); simpl; (split; [apply lines_complaints|]);
    intros H; trace_in_loop (elem_of_complaints (length statuses)
      "Invalid input. Task status must be a non-numeric string.") H.
Qed.

Lemma reportViolation_rejects_numeric_witness :
  db_after (Manager.reportViolation env_ok db_assigned [Some 1] ["42"; ""]) = db_assigned
  ∧ lines (trace (Manager.reportViolation env_ok db_assigned [Some 1] ["42"; ""]))
    = [ "Invalid input. Task status must be a non-numeric string.";
        "Invalid input. Task status must be a non-numeric string." ].
Proof.
  assert (Hrej : Forall (λ s, s = "" ∨ Forall (λ c, c ∈ String.list_ascii_of_string "0123456789")
                                               (String.list_ascii_of_string s)) ["42"; ""]).
  { constructor; [right | constructor; [by left | constructor]].
    simpl. repeat (constructor; [vm_compute; repeat constructor|]). constructor. }
  destruct (reportViolation_rejects_numeric env_ok db_assigned 1 ["42"; ""] ltac:(lia) Hrej)
    as (Hdb & Hlines & _).
  split; [exact Hdb | exact Hlines].
Defined.

(** What an accepted violation report writes: the status (up to its
    first 0 byte) and the clock reading go into the row, every other column and every other row stay,
    and the row's earlier status is not consulted.  The comment column
    receives the empty string on every run. *)
Lemma reportViolation_overwrites E db taskId status row :
  0 ≤ taskId → Manager.read_status status = Some status →
  prepare_ok E updateSql_violation = true → step_ok E updateSql_violation = true →
  tbl_tasks db !! taskId = Some row →
  tbl_tasks (db_after (Manager.reportViolation E db [Some taskId] [status])) !! taskId
  = Some (tasks.mk (tasks.worker_id row) (tasks.worker_username row)
            (tasks.task_description row) (c_str status) (Some "")
            (Some (pop_newline (c_str (ctime_now E))))
            (tasks.worker_report row) (tasks.worker_media row))
  ∧ ∀ other, other ≠ taskId →
      tbl_tasks (db_after (Manager.reportViolation E db [Some taskId] [status])) !! other
      = tbl_tasks db !! other.
Proof.
  intros Hid Hst Hp Hs Hrow. unfold Manager.reportViolation.
  rewrite !ask_single, (nonneg_Some _ Hid), Hst, Hp, Hs.
  unfold after, Sql.update_violation. cbn [db_after with_tasks tbl_tasks]. split.
  - rewrite lookup_alter_eq, Hrow. unfold Sql.set_violation. simpl.
    by rewrite (c_str_pop_newline _ (c_str_idemp _)).
  - intros other Hne. by rewrite lookup_alter_ne.
Qed.

(** C3 at the scenario of the specification.  Task 1 is completed; the
    manager reports it with status "violation" and means to comment
    "no helmet".  No prompt reads a comment: the row gets the status and
    the timestamp, and the empty string as its violation comment. *)
Theorem reportViolation_comment_empty :
  tbl_tasks (db_after (Manager.reportViolation env_ok db_reported [Some 1] ["violation"])) !! 1
  = Some (tasks.mk 5 "alice" "Wear PPE" "violation" (Some "")
            (Some "Fri Oct 30 09:15:00 2026")
            (Some "PPE confirmed") (Some "./uploads/task_1_user_5")).
Proof. reflexivity. Qed.

(** ** Assign: [Manager::assignTask] *)

Lemma max_rowid_ge {A} (m : gmap Z A) k x : m !! k = Some x → k ≤ Sql.max_rowid m.
Proof.
  intros Hk. apply elem_of_map_to_list in Hk. unfold Sql.max_rowid.
  induction (map_to_list m) as [|kv l IH]; simpl.
  - by apply elem_of_nil in Hk.
  - apply elem_of_cons in Hk as [<-|Hk]; simpl; [lia|]. specialize (IH Hk). lia.
Qed.

Lemma next_rowid_fresh {A} seq (m : gmap Z A) : m !! Sql.next_rowid seq m = None.
Proof.
  destruct (m !! Sql.next_rowid seq m) as [x|] eqn:Hk; [|done].
  apply max_rowid_ge in Hk. unfold Sql.next_rowid in Hk. lia.
Qed.

(** An id that no user has: nothing is inserted, "Worker not found." *)
Lemma assignTask_unknown_id E db workerId task :
  0 ≤ workerId → prepare_ok E getUserSql = true → tbl_users db !! workerId = None →
  db_after (Manager.assignTask E db [Some workerId] task) = db
  ∧ lines (trace (Manager.assignTask E db [Some workerId] task)) = ["Worker not found."].
Proof.
  intros Hid Hp Hnone. unfold Manager.assignTask.
  rewrite ask_single, (nonneg_Some _ Hid), Hp. unfold Sql.select_username.
  rewrite Hnone. by destruct (step_ok E getUserSql), (prepare_ok E queryWorkers).
Qed.

(** An id that some user has, worker or not: exactly one row is inserted,
    under a fresh rowid, pending and carrying that id, with the name and
    the description up to their first 0 byte. *)
Lemma assignTask_known_id E db workerId task u :
  0 ≤ workerId → tbl_users db !! workerId = Some u →
  prepare_ok E getUserSql = true → step_ok E getUserSql = true →
  prepare_ok E insertSql = true → step_ok E insertSql = true →
  tbl_tasks db !! Sql.next_rowid (seq_tasks db) (tbl_tasks db) = None
  ∧ tbl_tasks (db_after (Manager.assignTask E db [Some workerId] task))
    = <[Sql.next_rowid (seq_tasks db) (tbl_tasks db)
        := tasks.mk workerId (c_str (users.username u)) (c_str task) "pending"
             None None None None]>
        (tbl_tasks db)
  ∧ size (tbl_tasks (db_after (Manager.assignTask E db [Some workerId] task)))
    = S (size (tbl_tasks db)).
Proof.
  intros Hid Hu Hp1 Hs1 Hp2 Hs2.
  pose proof (next_rowid_fresh (seq_tasks db) (tbl_tasks db)) as Hfresh.
  unfold Manager.assignTask, Manager.assignTask_insert.
  rewrite ask_single, (nonneg_Some _ Hid), Hp1, Hs1. unfold Sql.select_username.
  rewrite Hu, Hp2, Hs2. unfold after, Sql.insert_task. cbn [fmap option_fmap option_map db_after tbl_tasks].
  rewrite c_str_idemp.
  split; [done|]. split; [done|]. by apply map_size_insert_None.
Qed.

(** C6 at a manager's id.  User 1 is registered with role "manager"; the
    lookup before the insert does not test the role, and the task is
    assigned to the manager. *)
Theorem assignTask_to_manager :
  users.role <$> tbl_users db_staff !! 1 = Some "manager"
  ∧ tbl_tasks (db_after (Manager.assignTask env_ok db_staff [Some 1] "Wear PPE")) !! 1
    = Some (tasks.mk 1 "boss" "Wear PPE" "pending" None None None None)
  ∧ lines (trace (Manager.assignTask env_ok db_staff [Some 1] "Wear PPE"))
    = ["Task assigned successfully."].
Proof. repeat split; reflexivity. Qed.

(** ** GiveFeedback: [Worker::GiveRuleFeedback] *)

(** Whatever happens in a feedback run, the rule keeps its text and its
    timestamp. *)
Lemma GiveRuleFeedback_keeps_rule E db ruleId feedback row :
  tbl_rules db !! ruleId = Some row →
  ∃ slot, tbl_rules (db_after (Worker.GiveRuleFeedback E db [Some ruleId] feedback)) !! ruleId
          = Some (rules.mk (rules.rule_text row) slot (rules.timestamp row)).
Proof.
  intros Hrow. unfold Worker.GiveRuleFeedback.
  assert (Hsame : ∃ slot, tbl_rules db !! ruleId
                          = Some (rules.mk (rules.rule_text row) slot (rules.timestamp row))).
  { exists (rules.feedback row). by destruct row. }
  destruct (prepare_ok E listRulesSql); [|done].
  rewrite ask_single. destruct (nonneg (Some ruleId)) as [k|] eqn:Hk; [|done].
  assert (k = ruleId) as ->.
  { unfold nonneg in Hk. destruct (decide (ruleId < 0)); congruence. }
  destruct (prepare_ok E updateSql_feedback); [|done].
  destruct (step_ok E updateSql_feedback); [|done].
  exists (Some (c_str feedback)). unfold after, Sql.update_feedback.
  cbn [db_after with_rules tbl_rules]. by rewrite lookup_alter_eq, Hrow.
Qed.

Lemma GiveRuleFeedback_writes E db ruleId feedback row :
  0 ≤ ruleId → tbl_rules db !! ruleId = Some row →
  prepare_ok E listRulesSql = true → prepare_ok E updateSql_feedback = true →
  step_ok E updateSql_feedback = true →
  tbl_rules (db_after (Worker.GiveRuleFeedback E db [Some ruleId] feedback)) !! ruleId
  = Some (rules.mk (rules.rule_text row) (Some (c_str feedback)) (rules.timestamp row)).
Proof.
  intros Hid Hrow Hl Hp Hs. unfold Worker.GiveRuleFeedback.
  rewrite Hl, ask_single, (nonneg_Some _ Hid), Hp, Hs.
  unfold after, Sql.update_feedback. cbn [db_after with_rules tbl_rules].
  by rewrite lookup_alter_eq, Hrow.
Qed.

(** C7.  Feedback [a] and then feedback [b], a text without a 0 byte, on a
    rule of the store leave [b] in the rule's feedback column, and
    nothing of [a]; the rule's text and timestamp are untouched.  Only
    the second write has to go through. *)
Theorem GiveRuleFeedback_last_write_wins E1 E2 db ruleId a b row :
  0 ≤ ruleId → tbl_rules db !! ruleId = Some row →
  "000"%char ∉ String.list_ascii_of_string b →
  prepare_ok E2 listRulesSql = true → prepare_ok E2 updateSql_feedback = true →
  step_ok E2 updateSql_feedback = true →
  tbl_rules (db_after (Worker.GiveRuleFeedback E2
                         (db_after (Worker.GiveRuleFeedback E1 db [Some ruleId] a))
                         [Some ruleId] b)) !! ruleId
  = Some (rules.mk (rules.rule_text row) (Some b) (rules.timestamp row)).
Proof.
  intros Hid Hrow Hnul Hl Hp Hs.
  destruct (GiveRuleFeedback_keeps_rule E1 db ruleId a row Hrow) as [slot Hfirst].
  rewrite (GiveRuleFeedback_writes E2 _ ruleId b _ Hid Hfirst Hl Hp Hs). simpl.
  by rewrite (c_str_whole _ Hnul).
Qed.

Lemma GiveRuleFeedback_last_write_wins_witness :
  tbl_rules (db_after (Worker.GiveRuleFeedback env_ok
                         (db_after (Worker.GiveRuleFeedback env_ok db_rule [Some 1] "unclear"))
                         [Some 1] "clear now")) !! 1
  = Some (rules.mk "Wear gloves" (Some "clear now") "2026-10-30 09:15:00").
Proof.
  apply (GiveRuleFeedback_last_write_wins env_ok env_ok db_rule 1 "unclear" "clear now"
           (rules.mk "Wear gloves" None "2026-10-30 09:15:00"));
    [lia | reflexivity | | reflexivity | reflexivity | reflexivity].
  vm_compute. intros H. repeat (inversion H as [|? ? ? H']; subst; clear H; rename H' into H).
Defined.

(** C10.  Feedback on an id that no rule has: the UPDATE selects no row,
    the database is what it was, the function returns, and the only line
    printed is the success line. *)
Theorem GiveRuleFeedback_unknown_rule E db ruleId feedback :
  0 ≤ ruleId → tbl_rules db !! ruleId = None →
  prepare_ok E listRulesSql = true → prepare_ok E updateSql_feedback = true →
  step_ok E updateSql_feedback = true →
  exit (Worker.GiveRuleFeedback E db [Some ruleId] feedback) = Returned
  ∧ db_after (Worker.GiveRuleFeedback E db [Some ruleId] feedback) = db
  ∧ lines (trace (Worker.GiveRuleFeedback E db [Some ruleId] feedback))
    = ["Feedback submitted successfully."].
Proof.
  intros Hid Hnone Hl Hp Hs. unfold Worker.GiveRuleFeedback.
  rewrite Hl, ask_single, (nonneg_Some _ Hid), Hp, Hs.
  unfold after, Sql.update_feedback. cbn [exit db_after trace].
  split; [done|]. split; [|done].
  rewrite alter_unmatched; [apply with_rules_same|]. intros x Hx. congruence.
Qed.

Lemma GiveRuleFeedback_unknown_rule_witness :
  db_after (Worker.GiveRuleFeedback env_ok db_rule [Some 9] "unclear") = db_rule
  ∧ lines (trace (Worker.GiveRuleFeedback env_ok db_rule [Some 9] "unclear"))
    = ["Feedback submitted successfully."].
Proof.
  destruct (GiveRuleFeedback_unknown_rule env_ok db_rule 9 "unclear")
    as (_ & Hdb & Hlines); [lia | reflexivity | reflexivity | reflexivity | reflexivity |].
  split; [exact Hdb | exact Hlines].
Defined.

(** ** Delete: [Manager::deleteTask] and the two listings *)

Lemma viewTaskDetails_row E db userId isManager l :
  l ∈ User.viewTaskDetails E db userId isManager →
  is_Some (tbl_tasks db !! User.id l).
Proof.
  unfold User.viewTaskDetails.
  destruct (prepare_ok E _); [|by rewrite elem_of_nil].
  destruct (step_ok E _); [|by rewrite elem_of_nil].
  rewrite list_elem_of_fmap. intros ([k row] & -> & Hin).
  apply list_elem_of_filter in Hin as [_ Hin].
  apply elem_of_rows in Hin. simpl. eauto.
Qed.

(** C8, as the code has it.  After a delete that goes through, the id is
    in neither listing, for any worker; when no row had the id, nothing is
    removed and the run still prints "Task deleted successfully.": no
    failure is reported. *)
Theorem deleteTask_removes E E' db taskId :
  0 ≤ taskId →
  prepare_ok E listSql_tasks = true → prepare_ok E deleteSql_task = true →
  step_ok E deleteSql_task = true →
  (∀ userId isManager l,
     l ∈ User.viewTaskDetails E' (db_after (Manager.deleteTask E db [Some taskId])) userId isManager →
     User.id l ≠ taskId)
  ∧ (tbl_tasks db !! taskId = None →
     db_after (Manager.deleteTask E db [Some taskId]) = db
     ∧ lines (trace (Manager.deleteTask E db [Some taskId])) = ["Task deleted successfully."]).
Proof.
  intros Hid Hl Hp Hs. unfold Manager.deleteTask.
  rewrite Hl, ask_single, (nonneg_Some _ Hid), Hp, Hs.
  unfold after, Sql.delete_task. cbn [db_after trace]. split.
  - intros userId isManager l Hin <-.
    apply viewTaskDetails_row in Hin as [row Hrow].
    cbn [with_tasks tbl_tasks] in Hrow. by rewrite lookup_delete_eq in Hrow.
  - intros Hnone. split; [|done]. rewrite delete_id by done. apply with_tasks_same.
Qed.

Lemma deleteTask_removes_witness :
  (∀ l, l ∈ User.viewTaskDetails env_ok
              (db_after (Manager.deleteTask env_ok db_reported [Some 1])) 5 false →
        User.id l ≠ 1)
  ∧ (∀ l, l ∈ User.viewTaskDetails env_ok
              (db_after (Manager.deleteTask env_ok db_reported [Some 1])) 0 true →
          User.id l ≠ 1).
Proof.
  destruct (deleteTask_removes env_ok env_ok db_reported 1) as [Hgone _];
    [lia | reflexivity | reflexivity | reflexivity |].
  split; intros l; apply Hgone.
Defined.

(** C8 as stated fails: no task has id 7, and deleting task 7 does not
    report a failure; it prints the success line. *)
Lemma deleteTask_removes_counterexample :
  tbl_tasks db_staff !! 7 = None
  ∧ ¬ (Cout "Task deleted successfully."
         ∉ trace (Manager.deleteTask env_ok db_staff [Some 7])).
Proof. split; [reflexivity|]. intros H. apply H. vm_compute. repeat constructor. Qed.

(** ** The lock [db_mutex] *)

Lemma takes_lock_app t1 t2 : takes_lock (t1 ++ t2) = takes_lock t1 || takes_lock t2.
Proof. apply existsb_app. Qed.

Lemma ask_takes_no_lock {A B} (read : A → option B) complaint answers :
  takes_lock (ask read complaint answers).1 = false.
Proof.
  induction answers as [|a rest IH]; simpl; [done|].
  destruct (read a); [done|]. by destruct (ask read complaint rest).
Qed.

Lemma guarded_after_ask {A B} (read : A → option B) complaint answers need held t :
  guarded need held ((ask read complaint answers).1 ++ t) = guarded need held t.
Proof.
  induction answers as [|a rest IH]; simpl; [done|].
  destruct (read a); [done|]. by destruct (ask read complaint rest).
Qed.

(** A trace that never takes the lock and steps a mutating statement is
    not guarded. *)
Lemma unlocked_write_unguarded t q :
  takes_lock t = false → Step q ∈ t → mutating q = true →
  guarded mutating false t = false.
Proof.
  intros Hno Hin Hq. induction t as [|e t IH]; [by apply elem_of_nil in Hin|].
  apply elem_of_cons in Hin as [<-|Hin]; simpl.
  - by rewrite Hq.
  - destruct e; simpl in *; try discriminate; try (by apply IH).
    rewrite (IH Hno Hin). apply andb_false_r.
Qed.

(** Runs of a prompt loop followed by a lock-free end take no lock. *)
Ltac no_lock :=
  repeat match goal with
         | |- context [if ?b then _ else _] => destruct b
         | |- context [ask ?r ?c ?l] =>
             let H := fresh in
             pose proof (ask_takes_no_lock r c l) as H;
             destruct (ask r c l) as [? [?|]]; simpl in H
         | |- context [Sql.select_username ?d ?k] => destruct (Sql.select_username d k)
         end;
  simpl; rewrite ?takes_lock_app; simpl;
  repeat match goal with H : takes_lock _ = false |- _ => rewrite H end;
  reflexivity.

(** C9, as the code has it.  [db_mutex] is taken in [reportTaskWork] only:
    there every statement, the listing and the UPDATE of the report, is
    stepped with the lock held.  No run of [assignTask], [reportViolation], [addRule],
    [deleteRule], [deleteTask] or [GiveRuleFeedback] takes the lock, so
    their INSERT, UPDATE and DELETE statements are stepped without it. *)
Theorem db_mutex_only_in_reportTaskWork E db :
  (∀ userId ids reportDesc mediaPath,
     guarded (λ _, true) false
       (trace (Worker.reportTaskWork E db userId ids reportDesc mediaPath)) = true)
  ∧ (∀ ids task, takes_lock (trace (Manager.assignTask E db ids task)) = false)
  ∧ (∀ ids statuses, takes_lock (trace (Manager.reportViolation E db ids statuses)) = false)
  ∧ (∀ rule_lines, takes_lock (trace (Manager.addRule E db rule_lines)) = false)
  ∧ (∀ ids, takes_lock (trace (Manager.deleteRule E db ids)) = false)
  ∧ (∀ ids, takes_lock (trace (Manager.deleteTask E db ids)) = false)
  ∧ (∀ ids feedback, takes_lock (trace (Worker.GiveRuleFeedback E db ids feedback)) = false).
Proof.
  split.
  { intros userId ids reportDesc mediaPath. unfold Worker.reportTaskWork, Worker.reportTaskWork_at.
    destruct (prepare_ok E query_assigned); [|done].
    pose proof (guarded_after_ask (Worker.read_task (Worker.validTaskIds E db userId))
                  "Invalid or unassigned task ID. Try again." ids (λ _, true) false) as Hg.
    destruct (ask _ _ ids) as [out [taskId|]]; simpl in Hg.
    - unfold after. cbn [trace]. rewrite <- app_assoc. simpl. rewrite Hg.
      unfold Worker.reportTask.
      repeat match goal with |- context [if ?b then _ else _] => destruct b end;
        reflexivity.
    - simpl. specialize (Hg []). by rewrite app_nil_r in Hg. }
  repeat split; intros;
    unfold Manager.assignTask, Manager.assignTask_insert, Manager.reportViolation,
           Manager.addRule, Manager.deleteRule, Manager.deleteTask,
           Worker.GiveRuleFeedback, after;
    no_lock.
Qed.

(** C9 as stated fails: assigning a task to worker 5 steps the INSERT, a
    mutating statement, and the lock is never taken in that run. *)
Lemma db_mutex_only_in_reportTaskWork_counterexample :
  Step insertSql ∈ trace (Manager.assignTask env_ok db_staff [Some 5] "Wear PPE")
  ∧ mutating insertSql = true
  ∧ ¬ (guarded mutating false
         (trace (Manager.assignTask env_ok db_staff [Some 5] "Wear PPE")) = true).
Proof.
  split; [vm_compute; repeat constructor|]. split; [reflexivity|].
  vm_compute. discriminate.
Qed.

(** * Further properties *)

(** ** Prompt loops *)

(** A prompt loop passes over the answers it rejects and leaves with the
    first it accepts; what is typed after that is not read by the loop. *)
Lemma ask_first_accepted {A B} (read : A → option B) complaint bad a b rest :
  Forall (λ x, read x = None) bad → read a = Some b →
  ask read complaint (bad ++ a :: rest) = (replicate (length bad) (Cout complaint), Some b).
Proof.
  intros Hbad Ha. induction Hbad as [|x bad Hx _ IH]; simpl.
  - by rewrite Ha.
  - by rewrite Hx, IH.
Qed.

Lemma lines_app t1 t2 : lines (t1 ++ t2) = (lines t1 ++ lines t2)%list.
Proof. unfold lines. apply omap_app. Qed.

Lemma lines_step q t : lines (Step q :: t) = lines t.
Proof. reflexivity. Qed.

Lemma no_faults_env_ok : no_faults env_ok.
Proof. intros q. split; reflexivity. Defined.

Lemma max_rowid_nonneg {A} (m : gmap Z A) : 0 ≤ Sql.max_rowid m.
Proof.
  unfold Sql.max_rowid. induction (map_to_list m) as [|kv l IH]; simpl; lia.
Qed.

Lemma next_rowid_pos {A} seq (m : gmap Z A) : 0 < Sql.next_rowid seq m.
Proof. pose proof (max_rowid_nonneg m). unfold Sql.next_rowid. lia. Qed.

(** ** [Manager::assignTask] *)

(** X1.  Answers that are no number or are negative are each answered
    with a complaint; the first other answer is the worker id.  When a
    user has that id, exactly one task is inserted, under a fresh rowid:
    pending, with that id, that user's name and the description typed,
    each up to its first 0 byte, and no violation or report yet.  Users
    and rules are untouched. *)
Theorem assignTask_assigns E db bad workerId rest task u :
  Forall (λ a, nonneg a = None) bad → 0 ≤ workerId →
  tbl_users db !! workerId = Some u →
  prepare_ok E getUserSql = true → step_ok E getUserSql = true →
  prepare_ok E insertSql = true → step_ok E insertSql = true →
  tbl_tasks db !! Sql.next_rowid (seq_tasks db) (tbl_tasks db) = None
  ∧ tbl_tasks (db_after (Manager.assignTask E db (bad ++ Some workerId :: rest) task))
    = <[Sql.next_rowid (seq_tasks db) (tbl_tasks db)
        := tasks.mk workerId (c_str (users.username u)) (c_str task) "pending"
             None None None None]>
        (tbl_tasks db)
  ∧ size (tbl_tasks (db_after (Manager.assignTask E db (bad ++ Some workerId :: rest) task)))
    = S (size (tbl_tasks db))
  ∧ tbl_users (db_after (Manager.assignTask E db (bad ++ Some workerId :: rest) task)) = tbl_users db
  ∧ tbl_rules (db_after (Manager.assignTask E db (bad ++ Some workerId :: rest) task)) = tbl_rules db
  ∧ lines (trace (Manager.assignTask E db (bad ++ Some workerId :: rest) task))
    = (replicate (length bad) "Invalid input. Please try again."
       ++ ["Task assigned successfully."])%list.
Proof.
  intros Hbad Hid Hu Hp1 Hs1 Hp2 Hs2.
  pose proof (next_rowid_fresh (seq_tasks db) (tbl_tasks db)) as Hfresh.
  unfold Manager.assignTask, Manager.assignTask_insert.
  rewrite (ask_first_accepted nonneg _ bad (Some workerId) workerId rest Hbad (nonneg_Some _ Hid)).
  rewrite Hp1, Hs1. unfold Sql.select_username. rewrite Hu, Hp2, Hs2.
  unfold after, Sql.insert_task.
  cbn [fmap option_fmap option_map db_after trace tbl_users tbl_tasks tbl_rules].
  rewrite c_str_idemp.
  split; [done|]. split; [done|]. split; [by apply map_size_insert_None|].
  split; [done|]. split; [done|].
  destruct (prepare_ok E queryWorkers);
    by rewrite !lines_app, ?lines_step, lines_complaints.
Qed.

Lemma assignTask_assigns_witness :
  tbl_tasks (db_after (Manager.assignTask env_ok db_staff ([None; Some (-1)] ++ Some 5 :: []) "Wear PPE"))
  = <[1 := tasks.mk 5 "alice" "Wear PPE" "pending" None None None None]> ∅
  ∧ lines (trace (Manager.assignTask env_ok db_staff ([None; Some (-1)] ++ Some 5 :: []) "Wear PPE"))
    = [ "Invalid input. Please try again."; "Invalid input. Please try again.";
        "Task assigned successfully." ].
Proof.
  destruct (assignTask_assigns env_ok db_staff [None; Some (-1)] 5 [] "Wear PPE"
              (users.mk "alice" "y" "worker"))
    as (_ & Hrow & _ & _ & _ & Hlines);
    [repeat constructor | lia | reflexivity | reflexivity | reflexivity | reflexivity
     | reflexivity |].
  split; [exact Hrow | exact Hlines].
Defined.

(** X2.  When no user has the id typed, the run ends with "Worker not
    found." and the database as it was. *)
Theorem assignTask_worker_not_found E db bad workerId rest task :
  Forall (λ a, nonneg a = None) bad → 0 ≤ workerId →
  tbl_users db !! workerId = None → prepare_ok E getUserSql = true →
  exit (Manager.assignTask E db (bad ++ Some workerId :: rest) task) = Returned
  ∧ db_after (Manager.assignTask E db (bad ++ Some workerId :: rest) task) = db
  ∧ lines (trace (Manager.assignTask E db (bad ++ Some workerId :: rest) task))
    = (replicate (length bad) "Invalid input. Please try again." ++ ["Worker not found."])%list.
Proof.
  intros Hbad Hid Hnone Hp. unfold Manager.assignTask.
  rewrite (ask_first_accepted nonneg _ bad (Some workerId) workerId rest Hbad (nonneg_Some _ Hid)).
  rewrite Hp. unfold Sql.select_username. rewrite Hnone.
  unfold after. split; [by destruct (step_ok E getUserSql)|].
  split; [by destruct (step_ok E getUserSql)|].
  destruct (step_ok E getUserSql), (prepare_ok E queryWorkers); cbn [trace fmap option_fmap option_map];
    by rewrite !lines_app, ?lines_step, lines_complaints.
Qed.

Lemma assignTask_worker_not_found_witness :
  db_after (Manager.assignTask env_ok db_staff ([None] ++ Some 7 :: []) "Wear PPE") = db_staff
  ∧ lines (trace (Manager.assignTask env_ok db_staff ([None] ++ Some 7 :: []) "Wear PPE"))
    = ["Invalid input. Please try again."; "Worker not found."].
Proof.
  destruct (assignTask_worker_not_found env_ok db_staff [None] 7 [] "Wear PPE")
    as (_ & Hdb & Hlines); [repeat constructor | lia | reflexivity | reflexivity |].
  split; [exact Hdb | exact Hlines].
Defined.

(** X3.  When the lookup of the worker cannot be prepared, the check is
    skipped: the task is inserted all the same, with an empty worker
    name and the description up to its first 0 byte, whether or not any
    user has the id. *)
Theorem assignTask_lookup_unprepared E db workerId task :
  0 ≤ workerId → prepare_ok E getUserSql = false →
  prepare_ok E insertSql = true → step_ok E insertSql = true →
  tbl_tasks (db_after (Manager.assignTask E db [Some workerId] task))
  = <[Sql.next_rowid (seq_tasks db) (tbl_tasks db)
      := tasks.mk workerId "" (c_str task) "pending" None None None None]> (tbl_tasks db)
  ∧ lines (trace (Manager.assignTask E db [Some workerId] task))
    = ["Task assigned successfully."].
Proof.
  intros Hid Hp1 Hp2 Hs2. unfold Manager.assignTask, Manager.assignTask_insert.
  rewrite ask_single, (nonneg_Some _ Hid), Hp1, Hp2, Hs2.
  by destruct (prepare_ok E queryWorkers).
Qed.

Lemma assignTask_lookup_unprepared_witness :
  tbl_users db_staff !! 7 = None
  ∧ tbl_tasks (db_after (Manager.assignTask env_nolookup db_staff [Some 7] "Wear PPE"))
    = <[1 := tasks.mk 7 "" "Wear PPE" "pending" None None None None]> ∅.
Proof.
  split; [reflexivity|].
  apply (assignTask_lookup_unprepared env_nolookup db_staff 7 "Wear PPE");
    [lia | reflexivity | reflexivity | reflexivity].
Defined.

(** ** [Manager::reportViolation] *)

(** X4.  Of the answers at the two prompts of a violation report, the
    first id that is a non-negative number and the first status that is
    accepted are used.  The task with that id gets the status up to its
    first 0 byte and the clock reading without its newline, whatever its
    status was; its assignment, its report and its media path stay, and
    so does every other task, user and rule. *)
Theorem reportViolation_writes E db bad taskId rest rejected status more row :
  Forall (λ a, nonneg a = None) bad → 0 ≤ taskId →
  Forall (λ s, Manager.read_status s = None) rejected →
  Manager.read_status status = Some status →
  prepare_ok E updateSql_violation = true → step_ok E updateSql_violation = true →
  tbl_tasks db !! taskId = Some row →
  tbl_tasks (db_after (Manager.reportViolation E db (bad ++ Some taskId :: rest)
                         (rejected ++ status :: more))) !! taskId
  = Some (tasks.mk (tasks.worker_id row) (tasks.worker_username row)
            (tasks.task_description row) (c_str status) (Some "")
            (Some (pop_newline (c_str (ctime_now E))))
            (tasks.worker_report row) (tasks.worker_media row))
  ∧ (∀ other, other ≠ taskId →
       tbl_tasks (db_after (Manager.reportViolation E db (bad ++ Some taskId :: rest)
                              (rejected ++ status :: more))) !! other
       = tbl_tasks db !! other)
  ∧ tbl_users (db_after (Manager.reportViolation E db (bad ++ Some taskId :: rest)
                           (rejected ++ status :: more))) = tbl_users db
  ∧ tbl_rules (db_after (Manager.reportViolation E db (bad ++ Some taskId :: rest)
                           (rejected ++ status :: more))) = tbl_rules db
  ∧ lines (trace (Manager.reportViolation E db (bad ++ Some taskId :: rest)
                    (rejected ++ status :: more)))
    = (replicate (length bad) "Invalid input. Task ID must be a non-negative number."
       ++ replicate (length rejected) "Invalid input. Task status must be a non-numeric string."
       ++ ["Task updated with violation info."])%list.
Proof.
  intros Hbad Hid Hrej Hst Hp Hs Hrow. unfold Manager.reportViolation.
  rewrite (ask_first_accepted nonneg _ bad (Some taskId) taskId rest Hbad (nonneg_Some _ Hid)).
  rewrite (ask_first_accepted Manager.read_status _ rejected status status more Hrej Hst).
  rewrite Hp, Hs. unfold after, Sql.update_violation.
  cbn [db_after trace with_tasks tbl_users tbl_tasks tbl_rules].
  split.
  { rewrite lookup_alter_eq, Hrow. unfold Sql.set_violation. simpl.
    by rewrite (c_str_pop_newline _ (c_str_idemp _)). }
  split; [intros other Hne; by rewrite lookup_alter_ne|].
  split; [done|]. split; [done|].
  destruct (prepare_ok E getTasks); cbn [app];
    rewrite ?lines_step, !lines_app, !lines_complaints, <- ?app_assoc; done.
Qed.

Lemma reportViolation_writes_witness :
  tbl_tasks (db_after (Manager.reportViolation env_ok db_reported ([None] ++ Some 1 :: [])
                         (["7"; ""] ++ "incomplete" :: []))) !! 1
  = Some (tasks.mk 5 "alice" "Wear PPE" "incomplete" (Some "")
            (Some "Fri Oct 30 09:15:00 2026")
            (Some "PPE confirmed") (Some "./uploads/task_1_user_5")).
Proof.
  apply (reportViolation_writes env_ok db_reported [None] 1 [] ["7"; ""] "incomplete" []
           (tasks.mk 5 "alice" "Wear PPE" "completed" None None
              (Some "PPE confirmed") (Some "./uploads/task_1_user_5")));
    [repeat constructor | lia | repeat constructor | reflexivity | reflexivity
     | reflexivity | reflexivity].
Defined.

Lemma read_status_nondigit s c :
  c ∈ String.list_ascii_of_string s → isdigit c = false → Manager.read_status s = Some s.
Proof.
  intros Hin Hc. unfold Manager.read_status, Manager.isNumeric.
  assert (forallb isdigit (String.list_ascii_of_string s) = false) as ->.
  { apply not_true_is_false. intros Hall. rewrite forallb_forall in Hall.
    apply list_elem_of_In in Hin. apply Hall in Hin. congruence. }
  rewrite orb_false_r. rewrite bool_decide_eq_false_2; [done|].
  intros ->. by apply elem_of_nil in Hin.
Qed.

(** X5.  A status line is accepted exactly when one of its characters is
    not a decimal digit: blanks, signs and letters all make it a status. *)
Theorem read_status_accepts_iff s :
  Manager.read_status s = Some s
  ↔ ∃ c, c ∈ String.list_ascii_of_string s ∧ isdigit c = false.
Proof.
  split.
  - unfold Manager.read_status, Manager.isNumeric.
    destruct (forallb isdigit (String.list_ascii_of_string s)) eqn:Hall.
    + by rewrite orb_true_r.
    + intros _. induction (String.list_ascii_of_string s) as [|c l IH]; [done|].
      simpl in Hall. destruct (isdigit c) eqn:Hc.
      * destruct (IH Hall) as (c' & Hin & Hc'). exists c'. split; [by right|done].
      * exists c. split; [by left|done].
  - intros (c & Hin & Hc). by apply (read_status_nondigit s c).
Qed.

(** X6.  A violation report on an id that no task has: the UPDATE selects
    no row, the database is what it was, and the run reports the update
    as done. *)
Theorem reportViolation_missing_task E db taskId status :
  0 ≤ taskId → Manager.read_status status = Some status →
  tbl_tasks db !! taskId = None →
  prepare_ok E updateSql_violation = true → step_ok E updateSql_violation = true →
  exit (Manager.reportViolation E db [Some taskId] [status]) = Returned
  ∧ db_after (Manager.reportViolation E db [Some taskId] [status]) = db
  ∧ lines (trace (Manager.reportViolation E db [Some taskId] [status]))
    = ["Task updated with violation info."].
Proof.
  intros Hid Hst Hnone Hp Hs. unfold Manager.reportViolation.
  rewrite !ask_single, (nonneg_Some _ Hid), Hst, Hp, Hs.
  unfold after, Sql.update_violation. cbn [exit db_after trace].
  split; [done|]. split.
  - rewrite alter_unmatched; [apply with_tasks_same|]. intros x Hx. congruence.
  - by destruct (prepare_ok E getTasks).
Qed.

Lemma reportViolation_missing_task_witness :
  db_after (Manager.reportViolation env_ok db_assigned [Some 9] ["violation"]) = db_assigned
  ∧ lines (trace (Manager.reportViolation env_ok db_assigned [Some 9] ["violation"]))
    = ["Task updated with violation info."].
Proof.
  destruct (reportViolation_missing_task env_ok db_assigned 9 "violation")
    as (_ & Hdb & Hlines); [lia | reflexivity | reflexivity | reflexivity | reflexivity |].
  split; [exact Hdb | exact Hlines].
Defined.

(** X7.  The timestamp clean-up removes one newline at the very end and
    nothing else. *)
Theorem pop_newline_end s :
  pop_newline (s +:+ newline) = s
  ∧ ∀ c, c ≠ "010"%char → pop_newline (s +:+ String c EmptyString) = s +:+ String c EmptyString.
Proof.
  split.
  - induction s as [|c s IH]; [reflexivity|].
    change (String c s +:+ newline) with (String c (s +:+ newline)).
    cbn [pop_newline]. rewrite IH. by destruct s.
  - intros c Hc. induction s as [|d s IH]; simpl.
    + destruct (Ascii.eqb c "010") eqn:Heq; [|done]. by apply Ascii.eqb_eq in Heq.
    + change (String.append s (String c EmptyString)) with (s +:+ String c EmptyString) in *.
      rewrite IH. by destruct s.
Qed.

(** ** [Manager::addRule], [Manager::deleteRule] *)

(** X8.  Empty lines are each answered with a complaint; the first line
    that is not empty becomes, up to its first 0 byte, a new rule under a
    fresh rowid, without feedback and stamped with the clock.  The rules
    already there, the tasks and the users are untouched. *)
Theorem addRule_inserts E db n rule rest :
  rule ≠ "" → prepare_ok E query_addRule = true → step_ok E query_addRule = true →
  tbl_rules db !! Sql.next_rowid (seq_rules db) (tbl_rules db) = None
  ∧ tbl_rules (db_after (Manager.addRule E db (replicate n "" ++ rule :: rest)))
    = <[Sql.next_rowid (seq_rules db) (tbl_rules db)
        := rules.mk (c_str rule) None (c_str (strftime_now E))]> (tbl_rules db)
  ∧ tbl_tasks (db_after (Manager.addRule E db (replicate n "" ++ rule :: rest))) = tbl_tasks db
  ∧ tbl_users (db_after (Manager.addRule E db (replicate n "" ++ rule :: rest))) = tbl_users db
  ∧ lines (trace (Manager.addRule E db (replicate n "" ++ rule :: rest)))
    = (replicate n "Rule cannot be empty. Please enter a valid safety rule."
       ++ ["New rule added successfully."])%list.
Proof.
  intros Hrule Hp Hs. split; [apply next_rowid_fresh|].
  unfold Manager.addRule.
  rewrite (ask_first_accepted Manager.read_rule _ (replicate n "") rule rule rest).
  - rewrite Hp, Hs, length_replicate. unfold after. cbn [db_after trace].
    repeat split; try done. by rewrite lines_app, lines_complaints.
  - by apply Forall_replicate.
  - unfold Manager.read_rule. by rewrite bool_decide_eq_false_2.
Qed.

Lemma addRule_inserts_witness :
  tbl_rules (db_after (Manager.addRule env_ok db_staff (replicate 2 "" ++ "Wear gloves" :: [])))
  = <[1 := rules.mk "Wear gloves" None "2026-10-30 09:15:00"]> ∅.
Proof.
  apply (addRule_inserts env_ok db_staff 2 "Wear gloves" []); [discriminate | reflexivity | reflexivity].
Defined.

(** X9.  Answers that are no number or are negative are each answered
    with a complaint; the first other answer is the rule deleted.  Only
    that rule goes, and when no rule has the id nothing changes; either
    way the run reports the deletion as done. *)
Theorem deleteRule_removes E db bad ruleId rest :
  Forall (λ a, nonneg a = None) bad → 0 ≤ ruleId →
  prepare_ok E listSql_rules = true → prepare_ok E deleteSql_rule = true →
  step_ok E deleteSql_rule = true →
  tbl_rules (db_after (Manager.deleteRule E db (bad ++ Some ruleId :: rest)))
  = delete ruleId (tbl_rules db)
  ∧ (tbl_rules db !! ruleId = None →
     db_after (Manager.deleteRule E db (bad ++ Some ruleId :: rest)) = db)
  ∧ tbl_tasks (db_after (Manager.deleteRule E db (bad ++ Some ruleId :: rest))) = tbl_tasks db
  ∧ tbl_users (db_after (Manager.deleteRule E db (bad ++ Some ruleId :: rest))) = tbl_users db
  ∧ lines (trace (Manager.deleteRule E db (bad ++ Some ruleId :: rest)))
    = (replicate (length bad) "Invalid input. Rule ID must be a non-negative number."
       ++ ["Rule deleted successfully."])%list.
Proof.
  intros Hbad Hid Hl Hp Hs. unfold Manager.deleteRule.
  rewrite Hl, (ask_first_accepted nonneg _ bad (Some ruleId) ruleId rest Hbad (nonneg_Some _ Hid)).
  rewrite Hp, Hs. unfold after, Sql.delete_rule. cbn [db_after trace with_rules tbl_rules tbl_tasks tbl_users].
  repeat split; try done.
  - intros Hnone. rewrite delete_id by done. by destruct db.
  - by rewrite lines_app, lines_step, lines_complaints.
Qed.

Lemma deleteRule_removes_witness :
  tbl_rules (db_after (Manager.deleteRule env_ok db_rule ([None; Some (-3)] ++ Some 1 :: []))) = ∅
  ∧ lines (trace (Manager.deleteRule env_ok db_rule ([None; Some (-3)] ++ Some 1 :: [])))
    = [ "Invalid input. Rule ID must be a non-negative number.";
        "Invalid input. Rule ID must be a non-negative number.";
        "Rule deleted successfully." ].
Proof.
  destruct (deleteRule_removes env_ok db_rule [None; Some (-3)] 1 [])
    as (Hgone & _ & _ & _ & Hlines);
    [repeat constructor | lia | reflexivity | reflexivity | reflexivity |].
  split; [|exact Hlines]. rewrite Hgone. reflexivity.
Defined.

(** ** Rowids *)

Lemma max_rowid_le {A} (m : gmap Z A) b :
  0 ≤ b → (∀ k x, m !! k = Some x → k ≤ b) → Sql.max_rowid m ≤ b.
Proof.
  intros Hb Hle. unfold Sql.max_rowid.
  assert (Hl : ∀ kv, kv ∈ map_to_list m → kv.1 ≤ b).
  { intros [k x] Hin. apply elem_of_map_to_list in Hin. simpl. eauto. }
  induction (map_to_list m) as [|kv l IH]; simpl; [done|].
  apply Z.max_lub.
  - apply Hl. by left.
  - apply IH. intros kv' Hin. apply Hl. by right.
Qed.

(** X10.  A rowid is not given twice: a task is assigned, deleted, and
    another is assigned; the second task gets the next rowid, not the one
    set free. *)
Theorem assignTask_rowid_not_reused E db workerId u task1 task2 :
  no_faults E → 0 ≤ workerId → tbl_users db !! workerId = Some u →
  tbl_tasks
    (db_after (Manager.assignTask E
       (db_after (Manager.deleteTask E
          (db_after (Manager.assignTask E db [Some workerId] task1))
          [Some (Sql.next_rowid (seq_tasks db) (tbl_tasks db))]))
       [Some workerId] task2))
  = <[Sql.next_rowid (seq_tasks db) (tbl_tasks db) + 1
      := tasks.mk workerId (c_str (users.username u)) (c_str task2) "pending"
           None None None None]>
      (tbl_tasks db).
Proof.
  intros HE Hid Hu.
  pose proof (next_rowid_fresh (seq_tasks db) (tbl_tasks db)) as Hfresh.
  pose proof (next_rowid_pos (seq_tasks db) (tbl_tasks db)) as Hpos.
  set (id1 := Sql.next_rowid (seq_tasks db) (tbl_tasks db)) in *.
  assert (H1 : db_after (Manager.assignTask E db [Some workerId] task1)
               = Sql.insert_task workerId (c_str (users.username u)) (c_str task1) db).
  { unfold Manager.assignTask, Manager.assignTask_insert.
    rewrite ask_single, (nonneg_Some _ Hid).
    rewrite (proj1 (HE getUserSql)), (proj2 (HE getUserSql)).
    unfold Sql.select_username. rewrite Hu. cbn [fmap option_fmap option_map].
    rewrite (proj1 (HE insertSql)), (proj2 (HE insertSql)).
    unfold after. cbn [db_after]. by rewrite c_str_idemp. }
  rewrite H1.
  assert (H2 : db_after (Manager.deleteTask E
                 (Sql.insert_task workerId (c_str (users.username u)) (c_str task1) db)
                 [Some id1])
               = mkDb (tbl_users db) (tbl_tasks db) (tbl_rules db) id1 (seq_rules db)).
  { unfold Manager.deleteTask.
    rewrite (proj1 (HE listSql_tasks)), ask_single, (nonneg_Some id1) by lia.
    rewrite (proj1 (HE deleteSql_task)), (proj2 (HE deleteSql_task)).
    unfold after, Sql.delete_task, Sql.insert_task, with_tasks.
    cbn [db_after tbl_users tbl_tasks tbl_rules seq_tasks seq_rules]. fold id1.
    by rewrite delete_insert_eq, delete_id. }
  rewrite H2.
  unfold Manager.assignTask, Manager.assignTask_insert.
  rewrite ask_single, (nonneg_Some _ Hid).
  rewrite (proj1 (HE getUserSql)), (proj2 (HE getUserSql)).
  unfold Sql.select_username. cbn [tbl_users]. rewrite Hu. cbn [fmap option_fmap option_map].
  rewrite (proj1 (HE insertSql)), (proj2 (HE insertSql)).
  unfold after, Sql.insert_task. cbn [db_after tbl_users tbl_tasks tbl_rules seq_tasks seq_rules].
  rewrite c_str_idemp.
  assert (Sql.next_rowid id1 (tbl_tasks db) = id1 + 1) as ->; [|done].
  unfold Sql.next_rowid. f_equal. apply Z.max_l.
  apply max_rowid_le; [lia|]. intros k x Hk. apply max_rowid_ge in Hk.
  unfold id1, Sql.next_rowid. lia.
Qed.

Lemma assignTask_rowid_not_reused_witness :
  tbl_tasks
    (db_after (Manager.assignTask env_ok
       (db_after (Manager.deleteTask env_ok
          (db_after (Manager.assignTask env_ok db_staff [Some 5] "Wear PPE")) [Some 1]))
       [Some 5] "Wear a helmet"))
  = <[2 := tasks.mk 5 "alice" "Wear a helmet" "pending" None None None None]> ∅.
Proof.
  apply (assignTask_rowid_not_reused env_ok db_staff 5 (users.mk "alice" "y" "worker")
           "Wear PPE" "Wear a helmet"); [exact no_faults_env_ok | lia | reflexivity].
Defined.

(** ** [Worker::reportTaskWork] *)

Lemma ask_accepted {A B} (read : A → option B) complaint answers out b :
  ask read complaint answers = (out, Some b) → ∃ a, a ∈ answers ∧ read a = Some b.
Proof.
  revert out. induction answers as [|a rest IH]; simpl; intros out; [done|].
  destruct (read a) as [b'|] eqn:Ha.
  - intros [= _ ->]. exists a. split; [by left|done].
  - destruct (ask read complaint rest) as [out' r]. intros [= _ ->].
    destruct (IH out' eq_refl) as (a' & Hin & Ha'). exists a'. split; [by right|done].
Qed.

Lemma read_task_Some valid a taskId :
  Worker.read_task valid a = Some taskId → 0 ≤ taskId ∧ taskId ∈ valid.
Proof.
  unfold Worker.read_task. destruct a as [t|]; [|done].
  destruct (decide (t < 0)); [done|]. destruct (decide (t ∈ valid)); [|done].
  intros [= <-]. split; [lia|done].
Qed.

(** The listing loop collects exactly the rowids of the worker's tasks
    that are not completed. *)
Lemma validTaskIds_iff E db userId taskId :
  step_ok E query_assigned = true →
  taskId ∈ Worker.validTaskIds E db userId
  ↔ ∃ row, tbl_tasks db !! taskId = Some row ∧ tasks.worker_id row = userId
           ∧ tasks.status row ≠ "completed".
Proof.
  intros Hs. split; [apply validTaskIds_assigned|].
  intros (row & Hrow & Hw & Hst). unfold Worker.validTaskIds, Sql.select_assigned.
  rewrite Hs. apply list_elem_of_fmap.
  exists (taskId, tasks.task_description row, tasks.status row). split; [done|].
  apply list_elem_of_fmap. exists (taskId, row). split; [done|].
  apply list_elem_of_filter. split; [done|]. by apply elem_of_rows.
Qed.

(** X11.  At the prompt of a report, an answer is turned down when it is
    no number, is negative, or is not the id of a task of this worker
    that is still open (no such task, another worker's, or completed).
    Given only such answers the run writes nothing. *)
Theorem reportTaskWork_rejects_unlisted E db userId ids reportDesc mediaPath :
  prepare_ok E query_assigned = true →
  Forall (λ a, ∀ t row, a = Some t → tbl_tasks db !! t = Some row →
               tasks.worker_id row ≠ userId ∨ tasks.status row = "completed") ids →
  exit (Worker.reportTaskWork E db userId ids reportDesc mediaPath) = Starved
  ∧ db_after (Worker.reportTaskWork E db userId ids reportDesc mediaPath) = db
  ∧ lines (trace (Worker.reportTaskWork E db userId ids reportDesc mediaPath))
    = replicate (length ids) "Invalid or unassigned task ID. Try again.".
Proof.
  intros Hl Hids. unfold Worker.reportTaskWork, Worker.reportTaskWork_at. rewrite Hl.
  rewrite ask_all_rejected.
  - cbn [exit db_after trace]. repeat split.
    change ([Lock; Step query_assigned; Unlock] ++ ?t)%list with (Lock :: Step query_assigned :: Unlock :: t).
    apply lines_complaints.
  - eapply Forall_impl; [exact Hids|]. intros a Ha. simpl in Ha.
    destruct (Worker.read_task (Worker.validTaskIds E db userId) a) as [t|] eqn:Hread; [|done].
    exfalso. pose proof Hread as Hr. apply read_task_Some in Hr as [_ Hin].
    apply validTaskIds_assigned in Hin as (row & Hrow & Hw & Hst).
    unfold Worker.read_task in Hread. destruct a as [t'|]; [|done].
    destruct (decide (t' < 0)); [done|]. destruct (decide (t' ∈ _)); [|done].
    injection Hread as ->. destruct (Ha t row eq_refl Hrow); done.
Qed.

Lemma reportTaskWork_rejects_unlisted_witness :
  db_after (Worker.reportTaskWork env_ok db_reported 5 [None; Some 1; Some 2]
              "PPE confirmed" "/tmp/img.jpg") = db_reported
  ∧ lines (trace (Worker.reportTaskWork env_ok db_reported 5 [None; Some 1; Some 2]
                    "PPE confirmed" "/tmp/img.jpg"))
    = replicate 3 "Invalid or unassigned task ID. Try again.".
Proof.
  assert (Hids : Forall (λ a, ∀ t row, a = Some t → tbl_tasks db_reported !! t = Some row →
                   tasks.worker_id row ≠ 5 ∨ tasks.status row = "completed")
                   [None; Some 1; Some 2]).
  { constructor; [done|]. constructor; [|constructor; [|constructor]].
    - intros t row [= <-] Hrow. vm_compute in Hrow. injection Hrow as <-. by right.
    - intros t row [= <-] Hrow. vm_compute in Hrow. discriminate. }
  destruct (reportTaskWork_rejects_unlisted env_ok db_reported 5 [None; Some 1; Some 2]
              "PPE confirmed" "/tmp/img.jpg" eq_refl Hids) as (_ & Hdb & Hlines).
  split; [exact Hdb | exact Hlines].
Defined.

(** A run that announces its success leaves the task completed. *)
Lemma reportTaskWork_success_status E db taskId userId reportDesc mediaPath :
  Cout "Task report submitted successfully."
    ∈ trace (Worker.reportTaskWork E db userId [Some taskId] reportDesc mediaPath) →
  ∃ row, tbl_tasks (db_after (Worker.reportTaskWork E db userId [Some taskId] reportDesc mediaPath))
           !! taskId = Some row
         ∧ tasks.status row = "completed".
Proof.
  unfold Worker.reportTaskWork, Worker.reportTaskWork_at.
  destruct (prepare_ok E query_assigned); [|intros H; trace_in H].
  rewrite ask_single. unfold Worker.read_task.
  destruct (decide (taskId < 0)); [intros H; trace_in H|].
  destruct (decide (taskId ∈ Worker.validTaskIds E db userId)) as [Hin|];
    [|intros H; trace_in H].
  apply validTaskIds_assigned in Hin as (row & Hrow & Hw & _).
  unfold Worker.reportTask.
  destruct (create_directories_ok E); [|intros H; trace_in H].
  destruct (copy_ok E mediaPath _); [|intros H; trace_in H].
  destruct (prepare_ok E updateSql_report); [|intros H; trace_in H].
  destruct (step_ok E updateSql_report); [|intros H; trace_in H].
  intros _. unfold after, finally. cbn [db_after].
  rewrite (update_report_lookup _ _ _ _ _ row) by done. eauto.
Qed.

(** X12.  A task is reported once: after a report that went through, the
    same id is turned down at the prompt of the next report, and that
    run writes nothing. *)
Theorem reportTaskWork_once E E' db taskId userId reportDesc mediaPath reportDesc' mediaPath' :
  Cout "Task report submitted successfully."
    ∈ trace (Worker.reportTaskWork E db userId [Some taskId] reportDesc mediaPath) →
  prepare_ok E' query_assigned = true →
  exit (Worker.reportTaskWork E'
          (db_after (Worker.reportTaskWork E db userId [Some taskId] reportDesc mediaPath))
          userId [Some taskId] reportDesc' mediaPath') = Starved
  ∧ db_after (Worker.reportTaskWork E'
          (db_after (Worker.reportTaskWork E db userId [Some taskId] reportDesc mediaPath))
          userId [Some taskId] reportDesc' mediaPath')
    = db_after (Worker.reportTaskWork E db userId [Some taskId] reportDesc mediaPath)
  ∧ lines (trace (Worker.reportTaskWork E'
          (db_after (Worker.reportTaskWork E db userId [Some taskId] reportDesc mediaPath))
          userId [Some taskId] reportDesc' mediaPath'))
    = ["Invalid or unassigned task ID. Try again."].
Proof.
  intros Hok Hl.
  destruct (reportTaskWork_success_status _ _ _ _ _ _ Hok) as (row & Hrow & Hst).
  set (db1 := db_after (Worker.reportTaskWork E db userId [Some taskId] reportDesc mediaPath)) in *.
  unfold Worker.reportTaskWork, Worker.reportTaskWork_at. rewrite Hl, ask_single.
  assert (Worker.read_task (Worker.validTaskIds E' db1 userId) (Some taskId) = None) as ->.
  { destruct (Worker.read_task _ _) as [t|] eqn:Hread; [|done]. exfalso.
    pose proof Hread as Hr. apply read_task_Some in Hr as [_ Hin].
    unfold Worker.read_task in Hread.
    destruct (decide (taskId < 0)); [done|]. destruct (decide (taskId ∈ _)); [|done].
    injection Hread as <-.
    apply validTaskIds_assigned in Hin as (row' & Hrow' & _ & Hst'). congruence. }
  done.
Qed.

Lemma reportTaskWork_once_witness :
  db_after (Worker.reportTaskWork env_ok db_reported 5 [Some 1] "again" "/tmp/other.jpg")
  = db_reported.
Proof.
  assert (Hok : Cout "Task report submitted successfully."
    ∈ trace (Worker.reportTaskWork env_ok db_assigned 5 [Some 1] "PPE confirmed" "/tmp/img.jpg")).
  { vm_compute. repeat constructor. }
  destruct (reportTaskWork_once env_ok env_ok db_assigned 1 5 "PPE confirmed" "/tmp/img.jpg"
              "again" "/tmp/other.jpg" Hok eq_refl) as (_ & Hdb & _).
  exact Hdb.
Defined.

(** X13.  What a report run can change: nothing but task rows that were
    open tasks of this worker, and in those the report (stored up to its
    first 0 byte), the media path and the status.  Users, rules, the rows
    of other workers and the set of task ids are as before, whatever is
    typed and whatever fails. *)
Theorem reportTaskWork_frame E db userId ids reportDesc mediaPath k :
  tbl_users (db_after (Worker.reportTaskWork E db userId ids reportDesc mediaPath)) = tbl_users db
  ∧ tbl_rules (db_after (Worker.reportTaskWork E db userId ids reportDesc mediaPath)) = tbl_rules db
  ∧ (tbl_tasks (db_after (Worker.reportTaskWork E db userId ids reportDesc mediaPath)) !! k
     = tbl_tasks db !! k
     ∨ ∃ row, tbl_tasks db !! k = Some row ∧ tasks.worker_id row = userId
              ∧ tasks.status row ≠ "completed"
              ∧ tbl_tasks (db_after (Worker.reportTaskWork E db userId ids reportDesc mediaPath)) !! k
                = Some (tasks.mk (tasks.worker_id row) (tasks.worker_username row)
                          (tasks.task_description row) "completed"
                          (tasks.violation_comment row) (tasks.violation_timestamp row)
                          (Some (c_str reportDesc))
                          (Some ("./uploads/task_" +:+ to_string k +:+ "_user_" +:+ to_string userId)))).
Proof.
  unfold Worker.reportTaskWork, Worker.reportTaskWork_at.
  destruct (prepare_ok E query_assigned); [|by repeat split; try left].
  destruct (ask _ _ ids) as [out [taskId|]] eqn:Hask; [|by repeat split; try left].
  apply ask_accepted in Hask as (a & _ & Hread).
  apply read_task_Some in Hread as [_ Hin].
  apply validTaskIds_assigned in Hin as (row & Hrow & Hw & Hst).
  unfold Worker.reportTask.
  destruct (create_directories_ok E); [|by repeat split; try left].
  destruct (copy_ok E mediaPath _); [|by repeat split; try left].
  destruct (prepare_ok E updateSql_report); [|by repeat split; try left].
  destruct (step_ok E updateSql_report); [|by repeat split; try left].
  unfold after, finally. cbn [db_after]. split; [done|]. split; [done|].
  destruct (decide (taskId = k)) as [<-|Hne].
  - right. exists row. repeat split; try done.
    rewrite (update_report_lookup _ _ _ _ _ row) by done.
    unfold Sql.set_report. by rewrite savedFilePath_c_str.
  - left. unfold Sql.update_report. cbn [with_tasks tbl_tasks]. by rewrite lookup_alter_ne.
Qed.

(** ** The task life cycle *)

Lemma reportViolation_db E db taskId status :
  0 ≤ taskId → Manager.read_status status = Some status →
  prepare_ok E updateSql_violation = true → step_ok E updateSql_violation = true →
  db_after (Manager.reportViolation E db [Some taskId] [status])
  = Sql.update_violation (c_str status) "" (pop_newline (c_str (ctime_now E))) taskId db.
Proof.
  intros Hid Hst Hp Hs. unfold Manager.reportViolation.
  rewrite !ask_single, (nonneg_Some _ Hid), Hst, Hp, Hs.
  unfold after. cbn [db_after]. by rewrite (c_str_pop_newline _ (c_str_idemp _)).
Qed.

(** X14.  The status a manager types decides whether the worker can
    report the task (again): after a violation report the task is among
    the worker's open tasks exactly when the new status, up to its first
    0 byte, is not the word "completed", whatever the status was before. *)
Theorem reportViolation_reopens E E' db taskId status row :
  0 ≤ taskId → Manager.read_status status = Some status →
  prepare_ok E updateSql_violation = true → step_ok E updateSql_violation = true →
  step_ok E' query_assigned = true →
  tbl_tasks db !! taskId = Some row →
  taskId ∈ Worker.validTaskIds E'
             (db_after (Manager.reportViolation E db [Some taskId] [status]))
             (tasks.worker_id row)
  ↔ c_str status ≠ "completed".
Proof.
  intros Hid Hst Hp Hs Hs' Hrow.
  rewrite (reportViolation_db E db taskId status Hid Hst Hp Hs).
  rewrite (validTaskIds_iff E' _ _ _ Hs').
  unfold Sql.update_violation. cbn [with_tasks tbl_tasks].
  rewrite lookup_alter_eq, Hrow. simpl. split.
  - intros (row' & [= <-] & _ & Hne). exact Hne.
  - intros Hne. eexists. split; [done|]. by split.
Qed.

Lemma reportViolation_reopens_witness :
  1 ∈ Worker.validTaskIds env_ok
        (db_after (Manager.reportViolation env_ok db_reported [Some 1] ["incomplete"])) 5.
Proof.
  apply (reportViolation_reopens env_ok env_ok db_reported 1 "incomplete"
           (tasks.mk 5 "alice" "Wear PPE" "completed" None None
              (Some "PPE confirmed") (Some "./uploads/task_1_user_5")));
    [lia | reflexivity | reflexivity | reflexivity | reflexivity | reflexivity | discriminate].
Defined.

Lemma assignTask_db E db workerId task u :
  no_faults E → 0 ≤ workerId → tbl_users db !! workerId = Some u →
  db_after (Manager.assignTask E db [Some workerId] task)
  = Sql.insert_task workerId (c_str (users.username u)) (c_str task) db.
Proof.
  intros HE Hid Hu. unfold Manager.assignTask, Manager.assignTask_insert.
  rewrite ask_single, (nonneg_Some _ Hid).
  rewrite (proj1 (HE getUserSql)), (proj2 (HE getUserSql)).
  unfold Sql.select_username. rewrite Hu. cbn [fmap option_fmap option_map].
  rewrite (proj1 (HE insertSql)), (proj2 (HE insertSql)).
  unfold after. cbn [db_after]. by rewrite c_str_idemp.
Qed.

(** X15.  From assignment to completion: the task a manager assigns to a
    registered user is offered to that user at the report prompt, and,
    when the new row is still as it was assigned at the moment the
    closure commits, the report turns it into a completed one that
    carries the assignment; the texts are stored up to their first 0
    byte. *)
Theorem assign_then_report E db db' workerId u task reportDesc mediaPath :
  no_faults E → create_directories_ok E = true →
  (∀ savedFilePath, copy_ok E mediaPath savedFilePath = true) →
  0 ≤ workerId → tbl_users db !! workerId = Some u →
  tbl_tasks db' !! Sql.next_rowid (seq_tasks db) (tbl_tasks db)
  = tbl_tasks (db_after (Manager.assignTask E db [Some workerId] task))
      !! Sql.next_rowid (seq_tasks db) (tbl_tasks db) →
  tbl_tasks
    (db_after (Worker.reportTaskWork_at E
       (db_after (Manager.assignTask E db [Some workerId] task)) db' workerId
       [Some (Sql.next_rowid (seq_tasks db) (tbl_tasks db))] reportDesc mediaPath))
    !! Sql.next_rowid (seq_tasks db) (tbl_tasks db)
  = Some (tasks.mk workerId (c_str (users.username u)) (c_str task) "completed" None None
            (Some (c_str reportDesc))
            (Some ("./uploads/task_" +:+ to_string (Sql.next_rowid (seq_tasks db) (tbl_tasks db))
                   +:+ "_user_" +:+ to_string workerId))).
Proof.
  intros HE Hd Hc Hid Hu.
  rewrite (assignTask_db E db workerId task u HE Hid Hu).
  pose proof (next_rowid_pos (seq_tasks db) (tbl_tasks db)) as Hpos.
  set (id1 := Sql.next_rowid (seq_tasks db) (tbl_tasks db)) in *.
  set (db1 := Sql.insert_task workerId (c_str (users.username u)) (c_str task) db).
  assert (Hrow : tbl_tasks db1 !! id1
                 = Some (tasks.mk workerId (c_str (users.username u)) (c_str task) "pending"
                           None None None None)).
  { unfold db1, Sql.insert_task. cbn [tbl_tasks]. fold id1. apply lookup_insert_eq. }
  intros Hstill. rewrite Hrow in Hstill.
  assert (Hin : id1 ∈ Worker.validTaskIds E db1 workerId).
  { apply validTaskIds_iff; [apply HE|]. eexists. split; [exact Hrow|]. by split. }
  unfold Worker.reportTaskWork_at, Worker.reportTask.
  rewrite (proj1 (HE query_assigned)), ask_single. unfold Worker.read_task.
  rewrite decide_False by lia. rewrite decide_True by done.
  rewrite Hd, Hc, (proj1 (HE updateSql_report)), (proj2 (HE updateSql_report)).
  unfold after, finally. cbn [db_after].
  rewrite (update_report_lookup _ _ _ _ _ _ Hstill) by done.
  unfold Sql.set_report. by rewrite savedFilePath_c_str.
Qed.

Lemma assign_then_report_witness :
  tbl_tasks db_reported !! 1
  = Some (tasks.mk 5 "alice" "Wear PPE" "completed" None None
            (Some "PPE confirmed") (Some "./uploads/task_1_user_5")).
Proof.
  apply (assign_then_report env_ok db_staff db_assigned 5 (users.mk "alice" "y" "worker")
           "Wear PPE" "PPE confirmed" "/tmp/img.jpg");
    [exact no_faults_env_ok | reflexivity | reflexivity | lia | reflexivity | reflexivity].
Defined.

(** ** Frames *)

(** X16.  What a feedback run can change: the feedback of one rule, which
    becomes the text given up to its first 0 byte.  No
    rule is added or removed, no rule text or timestamp changes, and the
    users and the tasks are as before, whatever is typed and whatever
    fails. *)
Theorem GiveRuleFeedback_frame E db ids feedback k :
  tbl_users (db_after (Worker.GiveRuleFeedback E db ids feedback)) = tbl_users db
  ∧ tbl_tasks (db_after (Worker.GiveRuleFeedback E db ids feedback)) = tbl_tasks db
  ∧ (tbl_rules (db_after (Worker.GiveRuleFeedback E db ids feedback)) !! k = tbl_rules db !! k
     ∨ ∃ row, tbl_rules db !! k = Some row
              ∧ tbl_rules (db_after (Worker.GiveRuleFeedback E db ids feedback)) !! k
                = Some (rules.mk (rules.rule_text row) (Some (c_str feedback))
                          (rules.timestamp row))).
Proof.
  unfold Worker.GiveRuleFeedback.
  destruct (prepare_ok E listRulesSql); [|by repeat split; try left].
  destruct (ask nonneg _ ids) as [out [ruleId|]]; [|by repeat split; try left].
  destruct (prepare_ok E updateSql_feedback); [|by repeat split; try left].
  destruct (step_ok E updateSql_feedback); [|by repeat split; try left].
  unfold after, Sql.update_feedback. cbn [db_after with_rules tbl_users tbl_tasks tbl_rules].
  split; [done|]. split; [done|].
  destruct (decide (ruleId = k)) as [<-|Hne].
  - rewrite lookup_alter_eq. destruct (tbl_rules db !! ruleId) as [row|]; [|by left].
    right. by exists row.
  - left. by rewrite lookup_alter_ne.
Qed.

(** X17.  What a task deletion can change: at most one task row goes, and
    no row is altered; users and rules are as before, whatever is typed
    and whatever fails. *)
Theorem deleteTask_frame E db ids :
  tbl_users (db_after (Manager.deleteTask E db ids)) = tbl_users db
  ∧ tbl_rules (db_after (Manager.deleteTask E db ids)) = tbl_rules db
  ∧ (tbl_tasks (db_after (Manager.deleteTask E db ids)) = tbl_tasks db
     ∨ ∃ taskId, Some taskId ∈ ids ∧ 0 ≤ taskId
                 ∧ tbl_tasks (db_after (Manager.deleteTask E db ids)) = delete taskId (tbl_tasks db)).
Proof.
  unfold Manager.deleteTask.
  destruct (prepare_ok E listSql_tasks); [|by repeat split; try left].
  destruct (ask nonneg _ ids) as [out [taskId|]] eqn:Hask; [|by repeat split; try left].
  destruct (prepare_ok E deleteSql_task); [|by repeat split; try left].
  destruct (step_ok E deleteSql_task); [|by repeat split; try left].
  split; [done|]. split; [done|]. right. exists taskId.
  apply ask_accepted in Hask as (a & Hin & Ha). unfold nonneg in Ha.
  destruct a as [n|]; [|done]. destruct (decide (n < 0)); [done|]. injection Ha as ->.
  split; [done|]. split; [lia|done].
Qed.

(** ** Accounts: [User::registerUser], [loginUser], [getUserRole],
    [userExists], [getUserId] *)

Lemma username_taken_false username db :
  Account.username_taken username db = false
  ↔ ∀ k u, tbl_users db !! k = Some u → users.username u ≠ username.
Proof.
  unfold Account.username_taken. rewrite bool_decide_eq_false, Exists_exists. split.
  - intros Hno k u Hk Hu. apply Hno. exists (k, u). split; [by apply elem_of_map_to_list|done].
  - intros Hno ([k u] & Hin & Hu). apply elem_of_map_to_list in Hin. by apply (Hno k u).
Qed.

Lemma singleton_list {A} (l : list A) a :
  NoDup l → a ∈ l → (∀ x, x ∈ l → x = a) → l = [a].
Proof.
  intros Hnd Hin Hall. destruct l as [|x l]; [by apply elem_of_nil in Hin|].
  assert (x = a) as -> by (apply Hall; by left).
  destruct l as [|y l]; [done|]. exfalso.
  assert (y = a) as -> by (apply Hall; right; by left).
  apply NoDup_cons in Hnd as [Hnot _]. apply Hnot. by left.
Qed.

(** After the insert of a fresh name, the rows with that name and digest
    are the new row alone. *)
Lemma matching_insert_user username hashed hashed' role db :
  Account.username_taken username db = false →
  Account.matching username hashed' (Account.insert_user username hashed role db)
  = if decide (hashed = hashed')
    then [(Sql.next_rowid 0 (tbl_users db), users.mk username hashed role)] else [].
Proof.
  intros Hfree. rewrite username_taken_false in Hfree.
  unfold Account.matching, Account.insert_user. cbn [tbl_users].
  set (id := Sql.next_rowid 0 (tbl_users db)).
  set (u := users.mk username hashed role).
  assert (Hin : ∀ kv, kv ∈ filter (λ kv, users.username kv.2 = username
                                         ∧ users.password kv.2 = hashed')
                         (Sql.rows (<[id:=u]> (tbl_users db)))
                      ↔ kv = (id, u) ∧ hashed = hashed').
  { intros [k x]. rewrite list_elem_of_filter, elem_of_rows. simpl. split.
    - intros [[Hu Hp] Hk]. destruct (decide (id = k)) as [<-|Hne].
      + rewrite lookup_insert_eq in Hk. injection Hk as <-. by split.
      + rewrite lookup_insert_ne in Hk by done. by destruct (Hfree k x Hk).
    - intros [[= -> ->] ->]. rewrite lookup_insert_eq. by repeat split. }
  destruct (decide (hashed = hashed')) as [Heq|Hne].
  - apply singleton_list.
    + apply NoDup_filter, NoDup_rows.
    + by apply Hin.
    + intros kv Hkv. by apply Hin in Hkv as [-> _].
  - destruct (filter _ _) as [|kv l] eqn:Hl; [done|]. exfalso.
    assert (kv ∈ kv :: l) as Hkv by (by left). apply Hin in Hkv as [_ ?]. done.
Qed.

Lemma registerUser_true hashPassword F db role username password db' out :
  Account.registerUser hashPassword F db role username password = (true, db', out) →
  username ≠ "" ∧ password ≠ "" ∧ Account.username_taken (c_str username) db = false
  ∧ db' = Account.insert_user (c_str username) (hashPassword password) role db.
Proof.
  unfold Account.registerUser.
  destruct (bool_decide (username = "")) eqn:Hu; [done|].
  destruct (bool_decide (password = "")) eqn:Hp; [done|]. simpl.
  apply bool_decide_eq_false in Hu, Hp.
  destruct (Account.prepares F _); [|done]. destruct (Account.steps F _); [|done].
  destruct (Account.username_taken (c_str username) db); [done|]. simpl. by intros [= <- <-].
Qed.

(** What the lookups return once a fresh name has been inserted. *)
Lemma insert_user_lookups hashPassword F' db role username password :
  username ≠ "" → password ≠ "" → Account.username_taken (c_str username) db = false →
  (∀ q, Account.prepares F' q = true ∧ Account.steps F' q = true) →
  Account.loginUser hashPassword F'
    (Account.insert_user (c_str username) (hashPassword password) role db)
    role username password
  = (true, [])
  ∧ Account.getUserRole hashPassword F'
      (Account.insert_user (c_str username) (hashPassword password) role db) username password
    = (role, [])
  ∧ Account.getUserId hashPassword F'
      (Account.insert_user (c_str username) (hashPassword password) role db) username password
    = (Sql.next_rowid 0 (tbl_users db), [])
  ∧ Account.userExists hashPassword F'
      (Account.insert_user (c_str username) (hashPassword password) role db) username password
    = true.
Proof.
  intros Hu Hp Hfree HF.
  unfold Account.loginUser, Account.getUserRole, Account.getUserId, Account.userExists.
  rewrite !(proj1 (HF _)), !(proj2 (HF _)).
  rewrite (matching_insert_user _ _ _ _ _ Hfree), decide_True by done.
  rewrite !bool_decide_eq_false_2 by done. simpl.
  repeat split; try done. f_equal. apply bool_decide_eq_true. by left.
Qed.

(** X19.  Register, then log in: after a registration that succeeded, the
    same name, password and role log in, [getUserRole] returns the role,
    [userExists] holds, and [getUserId] returns the rowid, not in use
    before, under which the new user is stored with the name up to its
    first 0 byte and the digest of the password. *)
Theorem registerUser_then_login hashPassword F F' db role username password db' out :
  Account.registerUser hashPassword F db role username password = (true, db', out) →
  (∀ q, Account.prepares F' q = true ∧ Account.steps F' q = true) →
  Account.loginUser hashPassword F' db' role username password = (true, [])
  ∧ Account.getUserRole hashPassword F' db' username password = (role, [])
  ∧ Account.userExists hashPassword F' db' username password = true
  ∧ ∃ id, tbl_users db !! id = None
          ∧ tbl_users db' !! id
            = Some (users.mk (c_str username) (hashPassword password) role)
          ∧ Account.getUserId hashPassword F' db' username password = (id, []).
Proof.
  intros Hreg HF. apply registerUser_true in Hreg as (Hu & Hp & Hfree & ->).
  destruct (insert_user_lookups hashPassword F' db role username password Hu Hp Hfree HF)
    as (Hlogin & Hrole & Hid & Hex).
  split; [done|]. split; [done|]. split; [done|].
  exists (Sql.next_rowid 0 (tbl_users db)). split; [apply next_rowid_fresh|].
  split; [|done]. unfold Account.insert_user. cbn [tbl_users]. apply lookup_insert_eq.
Qed.

Lemma registerUser_then_login_witness :
  Account.loginUser hash_sample faults_none
    (Account.registerUser hash_sample faults_none db_staff "worker" "carol" "pw").1.2
    "worker" "carol" "pw" = (true, [])
  ∧ Account.getUserRole hash_sample faults_none
      (Account.registerUser hash_sample faults_none db_staff "worker" "carol" "pw").1.2
      "carol" "pw" = ("worker", []).
Proof.
  destruct (registerUser_then_login hash_sample faults_none faults_none db_staff
              "worker" "carol" "pw"
              (Account.registerUser hash_sample faults_none db_staff "worker" "carol" "pw").1.2
              [] eq_refl (λ q, conj eq_refl eq_refl)) as (Hlogin & Hrole & _).
  split; [exact Hlogin | exact Hrole].
Defined.

(** X20.  The account just registered is entered with its own role and
    password only: a login under another role, or with a password of
    another digest, fails. *)
Theorem registerUser_other_credentials hashPassword F F' db role username password db' out
    role' password' :
  Account.registerUser hashPassword F db role username password = (true, db', out) →
  role' ≠ role ∨ hashPassword password' ≠ hashPassword password →
  (Account.loginUser hashPassword F' db' role' username password').1 = false.
Proof.
  intros Hreg Hdiff. apply registerUser_true in Hreg as (Hu & Hp & Hfree & ->).
  unfold Account.loginUser.
  destruct (bool_decide (username = "") || bool_decide (password' = "")); [done|].
  destruct (Account.prepares F' _); [|done]. cbn [fst].
  rewrite (matching_insert_user _ _ _ _ _ Hfree).
  apply andb_false_intro2, bool_decide_eq_false. rewrite Exists_exists.
  intros (kv & Hin & Hrole). destruct (decide _) as [Heq|]; [|by apply elem_of_nil in Hin].
  apply list_elem_of_singleton in Hin as ->. simpl in Hrole.
  destruct Hdiff as [?|?]; congruence.
Qed.

Lemma registerUser_other_credentials_witness :
  (Account.loginUser hash_sample faults_none
     (Account.registerUser hash_sample faults_none db_staff "worker" "carol" "pw").1.2
     "manager" "carol" "pw").1 = false.
Proof.
  apply (registerUser_other_credentials hash_sample faults_none faults_none db_staff
           "worker" "carol" "pw" _ [] "manager" "pw" eq_refl).
  left. discriminate.
Defined.

Lemma username_taken_true username db k u :
  tbl_users db !! k = Some u → users.username u = username →
  Account.username_taken username db = true.
Proof.
  intros Hk Hname. apply not_false_is_true. intros Hfree.
  rewrite username_taken_false in Hfree. by apply (Hfree k u).
Qed.

(** X21.  A registration is refused, and the database left as it is, when
    the name or the password is empty or when some user has the name, as
    it would be stored (up to its first 0 byte), already. *)
Theorem registerUser_refused hashPassword F db role username password :
  username = "" ∨ password = ""
  ∨ (∃ k u, tbl_users db !! k = Some u ∧ users.username u = c_str username) →
  (Account.registerUser hashPassword F db role username password).1 = (false, db).
Proof.
  intros Hbad. unfold Account.registerUser.
  destruct (bool_decide (username = "")) eqn:Hu; [done|].
  destruct (bool_decide (password = "")) eqn:Hp; [done|]. simpl.
  apply bool_decide_eq_false in Hu, Hp.
  destruct Hbad as [?|[?|(k & u & Hk & Hname)]]; [done|done|].
  destruct (Account.prepares F _); [|done].
  rewrite (username_taken_true (c_str username) db k u Hk Hname). by rewrite andb_false_r.
Qed.

Lemma registerUser_refused_witness :
  (Account.registerUser hash_sample faults_none db_staff "manager" "alice" "other").1
  = (false, db_staff).
Proof.
  apply (registerUser_refused hash_sample faults_none db_staff "manager" "alice" "other").
  right. right. exists 5, (users.mk "alice" "y" "worker"). split; reflexivity.
Defined.

(** Registration keeps the user names unique and the users already there
    as they are; it does not touch tasks or rules. *)
Lemma registerUser_keeps_users hashPassword F db role username password :
  unique_usernames db →
  unique_usernames (Account.registerUser hashPassword F db role username password).1.2
  ∧ (∀ k u, tbl_users db !! k = Some u →
            tbl_users (Account.registerUser hashPassword F db role username password).1.2 !! k
            = Some u)
  ∧ tbl_tasks (Account.registerUser hashPassword F db role username password).1.2 = tbl_tasks db
  ∧ tbl_rules (Account.registerUser hashPassword F db role username password).1.2 = tbl_rules db.
Proof.
  intros Huniq.
  destruct (Account.registerUser hashPassword F db role username password)
    as [[ok db'] out] eqn:Hreg.
  destruct ok.
  - apply registerUser_true in Hreg as (_ & _ & Hfree & ->).
    rewrite username_taken_false in Hfree.
    pose proof (next_rowid_fresh 0 (tbl_users db)) as Hfresh.
    unfold Account.insert_user. cbn [fst snd tbl_users tbl_tasks tbl_rules].
    set (id := Sql.next_rowid 0 (tbl_users db)) in *.
    split; [|split; [|done]].
    + intros k1 k2 u1 u2 H1 H2 Hname. cbn [tbl_users] in H1, H2.
      destruct (decide (id = k1)) as [<-|Hne1], (decide (id = k2)) as [<-|Hne2]; [done| | |].
      * rewrite lookup_insert_eq in H1. rewrite lookup_insert_ne in H2 by done.
        injection H1 as <-. simpl in Hname. by destruct (Hfree k2 u2 H2).
      * rewrite lookup_insert_eq in H2. rewrite lookup_insert_ne in H1 by done.
        injection H2 as <-. simpl in Hname. by destruct (Hfree k1 u1 H1).
      * rewrite lookup_insert_ne in H1, H2 by done. by apply (Huniq k1 k2 u1 u2).
    + intros k u Hk. rewrite lookup_insert_ne; [done|]. intros <-. congruence.
  - assert (db' = db) as ->; [|done].
    revert Hreg. unfold Account.registerUser.
    repeat match goal with |- context [if ?b then _ else _] => destruct b end;
      by intros [= <-].
Qed.

Lemma db_staff_users k u :
  tbl_users db_staff !! k = Some u →
  (k = 1 ∧ u = users.mk "boss" "x" "manager") ∨ (k = 5 ∧ u = users.mk "alice" "y" "worker").
Proof.
  unfold db_staff. cbn [tbl_users]. intros Hk.
  apply lookup_insert_Some in Hk as [[<- <-]|[_ Hk]]; [by left|].
  apply lookup_insert_Some in Hk as [[<- <-]|[_ Hk]]; [by right|].
  by rewrite lookup_empty in Hk.
Defined.

Lemma unique_usernames_db_staff : unique_usernames db_staff.
Proof.
  intros k1 k2 u1 u2 H1 H2 Hname.
  apply db_staff_users in H1 as [[-> ->]|[-> ->]], H2 as [[-> ->]|[-> ->]];
    simpl in Hname; congruence.
Defined.

Lemma matching_unknown username hashed db :
  (∀ k u, tbl_users db !! k = Some u →
          users.username u ≠ username ∨ users.password u ≠ hashed) →
  Account.matching username hashed db = [].
Proof.
  intros Hno. unfold Account.matching.
  destruct (filter _ _) as [|[k u] l] eqn:Hl; [done|]. exfalso.
  assert (Hin : (k, u) ∈ (k, u) :: l) by (by left). rewrite <- Hl in Hin.
  apply list_elem_of_filter in Hin as [[Hu Hp] Hin]. apply elem_of_rows in Hin.
  simpl in *. destruct (Hno k u Hin); done.
Qed.

(** X22.  Credentials that match no user, the name being compared up to
    its first 0 byte: the login fails, the role is "none", the id is -1
    and [userExists] is false. *)
Theorem login_unknown hashPassword F db role username password :
  (∀ k u, tbl_users db !! k = Some u →
          users.username u ≠ c_str username ∨ users.password u ≠ hashPassword password) →
  (Account.loginUser hashPassword F db role username password).1 = false
  ∧ (Account.getUserRole hashPassword F db username password).1 = "none"
  ∧ (Account.getUserId hashPassword F db username password).1 = -1
  ∧ Account.userExists hashPassword F db username password = false.
Proof.
  intros Hno. pose proof (matching_unknown _ _ _ Hno) as Hm.
  unfold Account.loginUser, Account.getUserRole, Account.getUserId, Account.userExists.
  rewrite Hm. repeat split.
  - destruct (_ || _); [done|]. destruct (Account.prepares F _); [|done].
    cbn [fst]. apply andb_false_intro2. apply bool_decide_eq_false.
    intros H. by apply Exists_nil in H.
  - destruct (Account.prepares F _); [|done]. by destruct (Account.steps F _).
  - destruct (Account.prepares F _); [|done]. by destruct (Account.steps F _).
  - destruct (Account.prepares F _); [|done]. by rewrite andb_false_r.
Qed.

Lemma login_unknown_witness :
  (Account.loginUser hash_sample faults_none db_staff "worker" "alice" "wrong").1 = false
  ∧ (Account.getUserId hash_sample faults_none db_staff "alice" "wrong").1 = -1.
Proof.
  assert (Hno : ∀ k u, tbl_users db_staff !! k = Some u →
                       users.username u ≠ "alice" ∨ users.password u ≠ hash_sample "wrong").
  { intros k u Hk. apply db_staff_users in Hk as [[-> ->]|[-> ->]]; [by left | by right]. }
  destruct (login_unknown hash_sample faults_none db_staff "worker" "alice" "wrong" Hno)
    as (Hlogin & _ & Hid & _).
  split; [exact Hlogin | exact Hid].
Defined.

(** ** Rule listings: [User::ViewRuleFeedback] *)

(** X23.  After feedback on a rule went through, the feedback listing
    shows that rule once, with its text and the feedback just given, each
    up to its first 0 byte. *)
Theorem ViewRuleFeedback_after_feedback F E db ruleId feedback row t s :
  0 ≤ ruleId → tbl_rules db !! ruleId = Some row →
  prepare_ok E listRulesSql = true → prepare_ok E updateSql_feedback = true →
  step_ok E updateSql_feedback = true →
  Account.prepares F Account.sql_ViewRuleFeedback = true →
  Account.steps F Account.sql_ViewRuleFeedback = true →
  (ruleId, t, s) ∈ (Account.ViewRuleFeedback F
                      (db_after (Worker.GiveRuleFeedback E db [Some ruleId] feedback))).1
  ↔ t = c_str (rules.rule_text row) ∧ s = c_str feedback.
Proof.
  intros Hid Hrow Hl Hp Hs HFp HFs.
  pose proof (GiveRuleFeedback_writes E db ruleId feedback row Hid Hrow Hl Hp Hs) as Hafter.
  unfold Account.ViewRuleFeedback. rewrite HFp, HFs. cbn [fst].
  rewrite list_elem_of_fmap. split.
  - intros ([k r] & Heq & Hin). apply elem_of_rows in Hin.
    simpl in Heq. injection Heq as <- -> ->. rewrite Hafter in Hin. injection Hin as <-.
    simpl. by rewrite c_str_idemp.
  - intros [-> ->].
    exists (ruleId, rules.mk (rules.rule_text row) (Some (c_str feedback)) (rules.timestamp row)).
    split; [simpl; by rewrite c_str_idemp|]. by apply elem_of_rows.
Qed.

Lemma ViewRuleFeedback_after_feedback_witness :
  (1, "Wear gloves", "clear now")
  ∈ (Account.ViewRuleFeedback faults_none
       (db_after (Worker.GiveRuleFeedback env_ok db_rule [Some 1] "clear now"))).1.
Proof.
  apply (ViewRuleFeedback_after_feedback faults_none env_ok db_rule 1 "clear now"
           (rules.mk "Wear gloves" None "2026-10-30 09:15:00") "Wear gloves" "clear now");
    [lia | reflexivity | reflexivity | reflexivity | reflexivity | reflexivity | reflexivity |].
  split; reflexivity.
Defined.

(** ** Menus *)

(** A relation that every operation of a menu stays in, and that is
    reflexive and transitive, holds between the database at the start of
    a visit to the menu and the database at its end. *)
Lemma menu_keeps (R : Db → Db → Prop) act :
  (∀ db, R db db) → (∀ db1 db2 db3, R db1 db2 → R db2 db3 → R db1 db3) →
  (∀ db choice a, R db (db_after (act db choice a))) →
  ∀ session db, R db (db_after (Main.menu act db session)).
Proof.
  intros Hrefl Htrans Hact session. induction session as [|[choice a] rest IH]; intros db.
  - apply Hrefl.
  - simpl. pose proof (Hact db choice a) as Hstep.
    destruct (exit (act db choice a)); [|done|done].
    destruct (decide (choice = 0)); [done|].
    unfold after. cbn [db_after]. eapply Htrans; [exact Hstep|apply IH].
Qed.

Lemma worker_changes_refl userId db : worker_changes userId db db.
Proof.
  repeat split; try done.
  all: intros; repeat match goal with H : _ !! _ = Some _ |- _ => revert H end; congruence.
Qed.

Lemma worker_changes_trans userId db1 db2 db3 :
  worker_changes userId db1 db2 → worker_changes userId db2 db3 →
  worker_changes userId db1 db3.
Proof.
  intros (Hu & Hdt & Hdr & Hother & Htask & Hrule) (Hu' & Hdt' & Hdr' & Hother' & Htask' & Hrule').
  split; [congruence|]. split; [congruence|]. split; [congruence|].
  split; [|split].
  - intros k row Hrow Hw. apply Hother'; [by apply Hother|done].
  - intros k row row'' Hrow Hrow''.
    assert (is_Some (tbl_tasks db2 !! k)) as [row' Hrow'].
    { apply elem_of_dom. rewrite Hdt. apply elem_of_dom. eauto. }
    destruct (Htask k row row' Hrow Hrow') as (? & ? & ? & ? & ?).
    destruct (Htask' k row' row'' Hrow' Hrow'') as (? & ? & ? & ? & ?).
    repeat split; congruence.
  - intros k r r'' Hr Hr''.
    assert (is_Some (tbl_rules db2 !! k)) as [r' Hr'].
    { apply elem_of_dom. rewrite Hdr. apply elem_of_dom. eauto. }
    destruct (Hrule k r r' Hr Hr') as [? ?]. destruct (Hrule' k r' r'' Hr' Hr'') as [? ?].
    split; congruence.
Qed.

Lemma reportTaskWork_worker_changes E db userId ids reportDesc mediaPath :
  worker_changes userId db
    (db_after (Worker.reportTaskWork E db userId ids reportDesc mediaPath)).
Proof.
  unfold Worker.reportTaskWork, Worker.reportTaskWork_at.
  destruct (prepare_ok E query_assigned); [|apply worker_changes_refl].
  destruct (ask _ _ ids) as [out [taskId|]]; [|apply worker_changes_refl].
  unfold Worker.reportTask.
  destruct (create_directories_ok E); [|apply worker_changes_refl].
  destruct (copy_ok E mediaPath _); [|apply worker_changes_refl].
  destruct (prepare_ok E updateSql_report); [|apply worker_changes_refl].
  destruct (step_ok E updateSql_report); [|apply worker_changes_refl].
  unfold after, finally, Sql.update_report. cbn [db_after].
  unfold worker_changes. cbn [with_tasks tbl_users tbl_tasks tbl_rules].
  split; [done|]. split; [apply dom_alter_L|]. split; [done|]. split; [|split].
  - intros k row Hrow Hw. destruct (decide (taskId = k)) as [<-|Hne].
    + rewrite lookup_alter_eq, Hrow. simpl. by rewrite decide_False.
    + by rewrite lookup_alter_ne.
  - intros k row row' Hrow. destruct (decide (taskId = k)) as [<-|Hne].
    + rewrite lookup_alter_eq, Hrow. simpl. destruct (decide _); by intros [= <-].
    + rewrite lookup_alter_ne by done. rewrite Hrow. by intros [= <-].
  - intros k r r' Hr Hr'. rewrite Hr in Hr'. by injection Hr' as <-.
Qed.

Lemma GiveRuleFeedback_worker_changes E db userId ids feedback :
  worker_changes userId db (db_after (Worker.GiveRuleFeedback E db ids feedback)).
Proof.
  unfold Worker.GiveRuleFeedback.
  destruct (prepare_ok E listRulesSql); [|apply worker_changes_refl].
  destruct (ask nonneg _ ids) as [out [ruleId|]]; [|apply worker_changes_refl].
  destruct (prepare_ok E updateSql_feedback); [|apply worker_changes_refl].
  destruct (step_ok E updateSql_feedback); [|apply worker_changes_refl].
  unfold after, Sql.update_feedback. cbn [db_after].
  unfold worker_changes. cbn [with_rules tbl_users tbl_tasks tbl_rules].
  split; [done|]. split; [done|]. split; [apply dom_alter_L|]. split; [|split].
  - done.
  - intros k row row' Hrow Hrow'. rewrite Hrow in Hrow'. by injection Hrow' as <-.
  - intros k r r' Hr. destruct (decide (ruleId = k)) as [<-|Hne].
    + rewrite lookup_alter_eq, Hr. simpl. by intros [= <-].
    + rewrite lookup_alter_ne by done. rewrite Hr. by intros [= <-].
Qed.

Lemma workerChoice_worker_changes F E userId db choice a :
  worker_changes userId db (db_after (Main.workerChoice F E userId db choice a)).
Proof.
  unfold Main.workerChoice.
  repeat case_match; subst;
    first [ apply reportTaskWork_worker_changes
          | apply GiveRuleFeedback_worker_changes
          | apply worker_changes_refl ].
Qed.

(** X24.  Whatever a worker does in a visit to the worker menu, and
    whatever fails: no user changes, no task and no rule is added or
    removed, the tasks of other workers are as they were, every task
    keeps its assignment and its violation columns, and every rule its
    text and timestamp. *)
Theorem handleWorkerMenu_changes hashPassword F E db username password session :
  tbl_users (db_after (Main.handleWorkerMenu hashPassword F E db username password session))
  = tbl_users db
  ∧ dom (tbl_tasks (db_after (Main.handleWorkerMenu hashPassword F E db username password session)))
    = dom (tbl_tasks db)
  ∧ dom (tbl_rules (db_after (Main.handleWorkerMenu hashPassword F E db username password session)))
    = dom (tbl_rules db)
  ∧ (∀ k row, tbl_tasks db !! k = Some row →
       tasks.worker_id row ≠ (Account.getUserId hashPassword F db username password).1 →
       tbl_tasks (db_after (Main.handleWorkerMenu hashPassword F E db username password session)) !! k
       = Some row)
  ∧ (∀ k row row', tbl_tasks db !! k = Some row →
       tbl_tasks (db_after (Main.handleWorkerMenu hashPassword F E db username password session)) !! k
       = Some row' →
       tasks.worker_id row' = tasks.worker_id row
       ∧ tasks.worker_username row' = tasks.worker_username row
       ∧ tasks.task_description row' = tasks.task_description row
       ∧ tasks.violation_comment row' = tasks.violation_comment row
       ∧ tasks.violation_timestamp row' = tasks.violation_timestamp row)
  ∧ (∀ k r r', tbl_rules db !! k = Some r →
       tbl_rules (db_after (Main.handleWorkerMenu hashPassword F E db username password session)) !! k
       = Some r' →
       rules.rule_text r' = rules.rule_text r ∧ rules.timestamp r' = rules.timestamp r).
Proof.
  unfold Main.handleWorkerMenu.
  destruct (Account.getUserId hashPassword F db username password) as [userId out].
  unfold after. cbn [db_after fst].
  apply (menu_keeps (worker_changes userId)).
  - apply worker_changes_refl.
  - apply worker_changes_trans.
  - apply workerChoice_worker_changes.
Qed.

Lemma sequence_ok_tasks db k row : sequence_ok db → tbl_tasks db !! k = Some row → k ≤ seq_tasks db.
Proof. intros [Ht _]. apply Ht. Qed.

Lemma sequence_ok_rules db k r : sequence_ok db → tbl_rules db !! k = Some r → k ≤ seq_rules db.
Proof. intros [_ Hr]. apply Hr. Qed.

Lemma manager_changes_refl db : sequence_ok db → manager_changes db db.
Proof.
  intros Hok. split; [done|]. split; [done|]. split; [lia|]. split; [lia|]. split.
  - intros k row' Hrow' _. exists row'. by repeat split.
  - by intros k r' Hr' _.
Qed.

Lemma manager_changes_trans db1 db2 db3 :
  manager_changes db1 db2 → manager_changes db2 db3 → manager_changes db1 db3.
Proof.
  intros (Hu & Hok & Hst & Hsr & Htask & Hrule) (Hu' & Hok' & Hst' & Hsr' & Htask' & Hrule').
  split; [congruence|]. split; [done|]. split; [lia|]. split; [lia|]. split.
  - intros k row'' Hrow'' Hk.
    destruct (Htask' k row'' Hrow'') as (row' & Hrow' & ? & ? & ? & ? & ?); [lia|].
    destruct (Htask k row' Hrow' Hk) as (row & Hrow & ? & ? & ? & ? & ?).
    exists row. repeat split; congruence.
  - intros k r'' Hr'' Hk. apply Hrule; [|done]. apply Hrule'; [done|lia].
Qed.

Lemma insert_task_manager_changes workerId username task db :
  sequence_ok db → manager_changes db (Sql.insert_task workerId username task db).
Proof.
  intros Hok. pose proof Hok as [Ht Hr].
  unfold Sql.insert_task, manager_changes, sequence_ok.
  cbn [tbl_users tbl_tasks tbl_rules seq_tasks seq_rules].
  set (id := Sql.next_rowid (seq_tasks db) (tbl_tasks db)).
  assert (Hid : seq_tasks db < id) by (unfold id, Sql.next_rowid; lia).
  split; [done|]. split; [split|].
  - intros k row. rewrite lookup_insert_Some. intros [[<- _]|[_ Hk]]; [lia|].
    apply Ht in Hk. lia.
  - done.
  - split; [lia|]. split; [lia|]. split; [|done].
    intros k row' Hk Hle. rewrite lookup_insert_ne in Hk by lia.
    exists row'. by repeat split.
Qed.

Lemma insert_rule_manager_changes rule timestamp db :
  sequence_ok db → manager_changes db (Sql.insert_rule rule timestamp db).
Proof.
  intros Hok. pose proof Hok as [Ht Hr].
  unfold Sql.insert_rule, manager_changes, sequence_ok.
  cbn [tbl_users tbl_tasks tbl_rules seq_tasks seq_rules].
  set (id := Sql.next_rowid (seq_rules db) (tbl_rules db)).
  assert (Hid : seq_rules db < id) by (unfold id, Sql.next_rowid; lia).
  split; [done|]. split; [split|].
  - done.
  - intros k r. rewrite lookup_insert_Some. intros [[<- _]|[_ Hk]]; [lia|].
    apply Hr in Hk. lia.
  - split; [lia|]. split; [lia|]. split.
    + intros k row' Hk _. exists row'. by repeat split.
    + intros k r' Hk Hle. by rewrite lookup_insert_ne in Hk by lia.
Qed.

Lemma update_violation_manager_changes status comment timestamp taskId db :
  sequence_ok db → manager_changes db (Sql.update_violation status comment timestamp taskId db).
Proof.
  intros Hok. pose proof Hok as [Ht Hr].
  unfold Sql.update_violation, manager_changes, sequence_ok.
  cbn [with_tasks tbl_users tbl_tasks tbl_rules seq_tasks seq_rules].
  assert (Hrows : ∀ k row', alter (Sql.set_violation status comment timestamp) taskId
                              (tbl_tasks db) !! k = Some row' →
            ∃ row, tbl_tasks db !! k = Some row
                   ∧ tasks.worker_id row' = tasks.worker_id row
                   ∧ tasks.worker_username row' = tasks.worker_username row
                   ∧ tasks.task_description row' = tasks.task_description row
                   ∧ tasks.worker_report row' = tasks.worker_report row
                   ∧ tasks.worker_media row' = tasks.worker_media row).
  { intros k row'. destruct (decide (taskId = k)) as [<-|Hne].
    - rewrite lookup_alter_eq. destruct (tbl_tasks db !! taskId) as [row|]; [|done].
      simpl. intros [= <-]. exists row. by repeat split.
    - rewrite lookup_alter_ne by done. intros Hk. exists row'. by repeat split. }
  split; [done|]. split; [split|].
  - intros k row' Hk. destruct (Hrows k row' Hk) as (row & Hrow & _). by apply (Ht k row).
  - done.
  - split; [lia|]. split; [lia|]. split; [|done]. intros k row' Hk _. by apply Hrows.
Qed.

Lemma delete_task_manager_changes taskId db :
  sequence_ok db → manager_changes db (Sql.delete_task taskId db).
Proof.
  intros Hok. pose proof Hok as [Ht Hr].
  unfold Sql.delete_task, manager_changes, sequence_ok.
  cbn [with_tasks tbl_users tbl_tasks tbl_rules seq_tasks seq_rules].
  split; [done|]. split; [split|].
  - intros k row. rewrite lookup_delete_Some. intros [_ Hk]. by apply (Ht k row).
  - done.
  - split; [lia|]. split; [lia|]. split; [|done].
    intros k row'. rewrite lookup_delete_Some. intros [_ Hk] _. exists row'. by repeat split.
Qed.

Lemma delete_rule_manager_changes ruleId db :
  sequence_ok db → manager_changes db (Sql.delete_rule ruleId db).
Proof.
  intros Hok. pose proof Hok as [Ht Hr].
  unfold Sql.delete_rule, manager_changes, sequence_ok.
  cbn [with_rules tbl_users tbl_tasks tbl_rules seq_tasks seq_rules].
  split; [done|]. split; [split|].
  - done.
  - intros k r. rewrite lookup_delete_Some. intros [_ Hk]. by apply (Hr k r).
  - split; [lia|]. split; [lia|]. split.
    + intros k row' Hk _. exists row'. by repeat split.
    + intros k r'. rewrite lookup_delete_Some. by intros [_ Hk] _.
Qed.

(** Every branch of the manager's switch ends with the database as it
    was or after one statement of the manager. *)
Ltac manager_cases :=
  repeat match goal with
         | |- context [if ?b then _ else _] => destruct b
         | |- context [ask ?r ?c ?l] => destruct (ask r c l) as [? [?|]]
         | |- context [Sql.select_username ?d ?k] => destruct (Sql.select_username d k)
         end.

Lemma managerChoice_manager_changes F E db choice a :
  sequence_ok db → manager_changes db (db_after (Main.managerChoice F E db choice a)).
Proof.
  intros Hok. unfold Main.managerChoice.
  repeat case_match; subst;
    unfold Manager.assignTask, Manager.assignTask_insert, Manager.reportViolation,
           Manager.addRule, Manager.deleteRule, Manager.deleteTask, after;
    manager_cases; cbn [db_after];
    first [ by apply manager_changes_refl
          | by apply insert_task_manager_changes
          | by apply insert_rule_manager_changes
          | by apply update_violation_manager_changes
          | by apply delete_task_manager_changes
          | by apply delete_rule_manager_changes ].
Qed.

(** X25.  Whatever a manager does in a visit to the manager menu, and
    whatever fails: no user changes; a task that was there before and is
    still there is the same assignment and carries what the worker
    reported; a rule that was there before and is still there is as it
    was.  ([sqlite_sequence] is not below the rowids at the start, as
    SQLite keeps it, and is not at the end.) *)
Theorem handleManagerMenu_changes F E db session :
  sequence_ok db →
  tbl_users (db_after (Main.handleManagerMenu F E db session)) = tbl_users db
  ∧ sequence_ok (db_after (Main.handleManagerMenu F E db session))
  ∧ (∀ k row row', tbl_tasks db !! k = Some row →
       tbl_tasks (db_after (Main.handleManagerMenu F E db session)) !! k = Some row' →
       tasks.worker_id row' = tasks.worker_id row
       ∧ tasks.worker_username row' = tasks.worker_username row
       ∧ tasks.task_description row' = tasks.task_description row
       ∧ tasks.worker_report row' = tasks.worker_report row
       ∧ tasks.worker_media row' = tasks.worker_media row)
  ∧ (∀ k r r', tbl_rules db !! k = Some r →
       tbl_rules (db_after (Main.handleManagerMenu F E db session)) !! k = Some r' → r' = r).
Proof.
  intros Hok. unfold Main.handleManagerMenu.
  assert (Hrel : sequence_ok db →
                 manager_changes db (db_after (Main.menu (Main.managerChoice F E) db session))).
  { apply (menu_keeps (λ d d', sequence_ok d → manager_changes d d')).
    - apply manager_changes_refl.
    - intros db1 db2 db3 H12 H23 H1. specialize (H12 H1).
      eapply manager_changes_trans; [exact H12|]. apply H23. apply H12.
    - intros d choice a. apply managerChoice_manager_changes. }
  destruct (Hrel Hok) as (Hu & Hok' & _ & _ & Htask & Hrule).
  split; [done|]. split; [done|]. split.
  - intros k row row' Hrow Hrow'.
    destruct (Htask k row' Hrow') as (row0 & Hrow0 & ?); [by apply (sequence_ok_tasks db k row)|].
    rewrite Hrow in Hrow0. by injection Hrow0 as <-.
  - intros k r r' Hr Hr'.
    pose proof (Hrule k r' Hr' (sequence_ok_rules db k r Hok Hr)). congruence.
Qed.

Lemma sequence_ok_db_reported : sequence_ok db_reported.
Proof.
  split; intros k row Hk.
  - destruct (decide (k = 1)) as [->|Hne]; [by vm_compute|].
    exfalso. revert Hk. change (tbl_tasks db_reported) with
      (alter (λ r, if decide (tasks.worker_id r = 5)
                   then Sql.set_report "PPE confirmed" "./uploads/task_1_user_5" r else r) 1
             (<[1 := tasks.mk 5 "alice" "Wear PPE" "pending" None None None None]> ∅ : gmap Z tasks.row)).
    rewrite lookup_alter_ne by done. rewrite lookup_insert_ne by done. by rewrite lookup_empty.
  - exfalso. revert Hk. change (tbl_rules db_reported) with (∅ : gmap Z rules.row).
    by rewrite lookup_empty.
Defined.

Lemma handleManagerMenu_changes_witness :
  tbl_users (db_after (Main.handleManagerMenu faults_none env_ok db_reported
               [(2, Main.mkAnswers [Some 1] ["violation"]); (0, Main.mkAnswers [] [])]))
  = tbl_users db_reported.
Proof.
  apply (handleManagerMenu_changes faults_none env_ok db_reported
           [(2, Main.mkAnswers [Some 1] ["violation"]); (0, Main.mkAnswers [] [])]).
  exact sequence_ok_db_reported.
Defined.

(** ** Registration, login and [main] *)

Lemma managerChoice_users F E db choice a :
  tbl_users (db_after (Main.managerChoice F E db choice a)) = tbl_users db.
Proof.
  unfold Main.managerChoice.
  repeat case_match; subst;
    unfold Manager.assignTask, Manager.assignTask_insert, Manager.reportViolation,
           Manager.addRule, Manager.deleteRule, Manager.deleteTask, after;
    manager_cases; reflexivity.
Qed.

Lemma menu_users act :
  (∀ db choice a, tbl_users (db_after (act db choice a)) = tbl_users db) →
  ∀ session db, tbl_users (db_after (Main.menu act db session)) = tbl_users db.
Proof.
  intros Hact. apply (menu_keeps (λ d d', tbl_users d' = tbl_users d)); [done| |done].
  intros db1 db2 db3. congruence.
Qed.

Lemma handleLogin_users hashPassword F E db username password session :
  tbl_users (db_after (Main.handleLogin hashPassword F E db username password session))
  = tbl_users db.
Proof.
  unfold Main.handleLogin, Main.handleWorkerMenu, Main.handleManagerMenu.
  destruct (Account.getUserRole _ _ _ _ _) as [role out].
  destruct (bool_decide (role = "worker")).
  - destruct (Account.loginUser _ _ _ _ _ _) as [[|] out']; [|done].
    destruct (Account.getUserId _ _ _ _ _) as [userId out''].
    unfold after. cbn [db_after]. apply menu_users.
    intros d choice a. apply (workerChoice_worker_changes F E userId d choice a).
  - destruct (bool_decide (role = "manager")); [|done].
    destruct (Account.loginUser _ _ _ _ _ _) as [[|] out']; [|done].
    unfold after. cbn [db_after]. apply menu_users. apply managerChoice_users.
Qed.

Lemma handleLogin_users_kept hashPassword F E db username password session :
  unique_usernames db →
  unique_usernames (db_after (Main.handleLogin hashPassword F E db username password session))
  ∧ (∀ k u, tbl_users db !! k = Some u →
            tbl_users (db_after (Main.handleLogin hashPassword F E db username password session))
              !! k = Some u).
Proof.
  intros Huniq.
  pose proof (handleLogin_users hashPassword F E db username password session) as Hu.
  split; [|intros k u; by rewrite Hu].
  intros k1 k2 u1 u2. rewrite Hu. apply Huniq.
Qed.

Lemma register_as_users hashPassword F db role username password :
  unique_usernames db →
  unique_usernames (db_after (Main.register_as hashPassword F db role username password))
  ∧ (∀ k u, tbl_users db !! k = Some u →
            tbl_users (db_after (Main.register_as hashPassword F db role username password)) !! k
            = Some u).
Proof.
  intros Huniq. unfold Main.register_as.
  destruct (Account.userExists _ _ _ _ _); [done|].
  destruct (registerUser_keeps_users hashPassword F db role username password Huniq)
    as (Hu & Hkept & _).
  destruct (Account.registerUser _ _ _ _ _ _) as [[[|] db'] out]; done.
Qed.

Lemma handleRegistration_users hashPassword F db username password roles :
  unique_usernames db →
  unique_usernames (db_after (Main.handleRegistration hashPassword F db username password roles))
  ∧ (∀ k u, tbl_users db !! k = Some u →
            tbl_users (db_after (Main.handleRegistration hashPassword F db username password roles))
              !! k = Some u).
Proof.
  intros Huniq. unfold Main.handleRegistration.
  destruct (Main.ask_role roles) as [out [role|]]; [|done].
  unfold after. cbn [db_after].
  destruct (bool_decide (role = "worker")); [by apply register_as_users|].
  destruct (bool_decide (role = "manager")); [by apply register_as_users|done].
Qed.

(** X26.  Whatever is typed in a run of the program, and whatever fails:
    the user names stay unique, and a user that is registered stays
    registered with the same name, password digest and role. *)
Theorem main_keeps_users hashPassword F E visits db :
  unique_usernames db →
  unique_usernames (db_after (Main.main hashPassword F E db visits))
  ∧ (∀ k u, tbl_users db !! k = Some u →
            tbl_users (db_after (Main.main hashPassword F E db visits)) !! k = Some u).
Proof.
  revert db. induction visits as [|v rest IH]; intros db Huniq; [done|].
  simpl. destruct (decide (Main.choice v = 0)); [done|].
  destruct (ask Main.read_nonempty _ (Main.usernames v)) as [out1 [username|]]; [|done].
  destruct (ask Main.read_nonempty _ (Main.passwords v)) as [out2 [password|]]; [|done].
  set (r := match Main.choice v with
            | 1 => Main.handleRegistration hashPassword F db username password (Main.roles v)
            | 2 => Main.handleLogin hashPassword F E db username password (Main.session v)
            | _ => mkRun Returned db [Cout "Invalid choice!"]
            end).
  assert (Hr : unique_usernames (db_after r)
               ∧ ∀ k u, tbl_users db !! k = Some u → tbl_users (db_after r) !! k = Some u).
  { unfold r. repeat case_match; subst;
      first [ by apply handleRegistration_users
            | by apply handleLogin_users_kept
            | by split ]. }
  destruct Hr as [Huniq' Hkept].
  destruct (exit r); [|done|done].
  unfold after. cbn [db_after].
  destruct (IH (db_after r) Huniq') as [Hu Hk]. split; [done|].
  intros k u Hin. by apply Hk, Hkept.
Qed.

Lemma main_keeps_users_witness :
  tbl_users (db_after (Main.main hash_sample faults_none env_ok db_staff
               [ Main.mkVisit 1 ["carol"] ["pw"] [""; "worker"] [];
                 Main.mkVisit 0 [] [] [] [] ])) !! 5
  = Some (users.mk "alice" "y" "worker").
Proof.
  apply (main_keeps_users hash_sample faults_none env_ok
           [ Main.mkVisit 1 ["carol"] ["pw"] [""; "worker"] [];
             Main.mkVisit 0 [] [] [] [] ] db_staff unique_usernames_db_staff).
  reflexivity.
Defined.

Lemma ask_role_accepted roles out role :
  Main.ask_role roles = (out, Some role) → role = "worker" ∨ role = "manager".
Proof.
  revert out. induction roles as [|r rest IH]; simpl; intros out; [done|].
  destruct (bool_decide (r = "")) eqn:He.
  { destruct (Main.ask_role rest) as [out' r']. intros [= _ ->]. by eapply IH. }
  destruct (bool_decide (r ≠ "worker")) eqn:Hw, (bool_decide (r ≠ "manager")) eqn:Hm; simpl.
  - destruct (Main.ask_role rest) as [out' r']. intros [= _ ->]. by eapply IH.
  - intros [= _ <-]. right. apply bool_decide_eq_false in Hm. by apply dec_stable.
  - intros [= _ <-]. left. apply bool_decide_eq_false in Hw. by apply dec_stable.
  - intros [= _ <-]. left. apply bool_decide_eq_false in Hw. by apply dec_stable.
Qed.

(** X27.  A registration under a name that, as it would be stored (up to
    its first 0 byte), some user has changes nothing, whatever the
    password and the role typed, and does not announce a success. *)
Theorem handleRegistration_name_taken hashPassword F db username password roles k u :
  tbl_users db !! k = Some u → users.username u = c_str username →
  db_after (Main.handleRegistration hashPassword F db username password roles) = db
  ∧ (Cout "Registration Successfull!"
       ∉ trace (Main.handleRegistration hashPassword F db username password roles)).
Proof.
  intros Hk Hname.
  assert (Hreg : ∀ role, db_after (Main.register_as hashPassword F db role username password) = db
                  ∧ (Cout "Registration Successfull!"
                       ∉ trace (Main.register_as hashPassword F db role username password))).
  { intros role. unfold Main.register_as.
    destruct (Account.userExists _ _ _ _ _); [split; [done|]; intros H; trace_in H|].
    unfold Account.registerUser.
    rewrite (username_taken_true (c_str username) db k u Hk Hname).
    rewrite andb_false_r.
    repeat match goal with |- context [if ?b then _ else _] => destruct b end;
      (split; [done|]); intros H; trace_in H. }
  unfold Main.handleRegistration.
  destruct (Main.ask_role roles) as [out [role|]] eqn:Hask.
  - assert (Hout : ∀ e, e ∈ out → e ≠ Cout "Registration Successfull!").
    { clear -Hask. revert out Hask. induction roles as [|r rest IH]; simpl; intros out; [done|].
      repeat case_match; intros [= <- ?] e He; subst;
        try (by apply elem_of_nil in He);
        apply elem_of_cons in He as [->|He]; try done; by eapply IH. }
    unfold after. cbn [db_after trace].
    destruct (bool_decide (role = "worker")); [|destruct (bool_decide (role = "manager"))].
    + destruct (Hreg "worker") as [-> Hno]. split; [done|].
      intros H. apply elem_of_app in H as [H|H]; [by apply (Hout _ H)|done].
    + destruct (Hreg "manager") as [-> Hno]. split; [done|].
      intros H. apply elem_of_app in H as [H|H]; [by apply (Hout _ H)|done].
    + split; [done|]. intros H. apply elem_of_app in H as [H|H]; [by apply (Hout _ H)|trace_in H].
  - split; [done|]. cbn [trace]. intros H.
    clear -Hask H. revert out Hask H. induction roles as [|r rest IH]; simpl; intros out.
    + intros [= <-] H. by apply elem_of_nil in H.
    + repeat case_match; intros [= <- ?] He; subst; try done;
        apply elem_of_cons in He as [?|He]; try done; by eapply IH.
Qed.

Lemma handleRegistration_name_taken_witness :
  db_after (Main.handleRegistration hash_sample faults_none db_staff "alice" "other" ["manager"])
  = db_staff.
Proof.
  apply (handleRegistration_name_taken hash_sample faults_none db_staff "alice" "other"
           ["manager"] 5 (users.mk "alice" "y" "worker")); reflexivity.
Defined.

(** X28.  A login with credentials that match no user, the name being
    compared up to its first 0 byte, ends at once: no menu is entered,
    nothing that was typed for a menu is acted on, the database is as it
    was, and "Invalid credentials!" is printed. *)
Theorem handleLogin_unknown hashPassword F E db username password session :
  (∀ k u, tbl_users db !! k = Some u →
          users.username u ≠ c_str username ∨ users.password u ≠ hashPassword password) →
  exit (Main.handleLogin hashPassword F E db username password session) = Returned
  ∧ db_after (Main.handleLogin hashPassword F E db username password session) = db
  ∧ Cout "Invalid credentials!"
      ∈ trace (Main.handleLogin hashPassword F E db username password session)
  ∧ (Cout "Logged in successfully!"
       ∉ trace (Main.handleLogin hashPassword F E db username password session)).
Proof.
  intros Hno. unfold Main.handleLogin, Account.getUserRole.
  rewrite (matching_unknown _ _ _ Hno).
  destruct (Account.prepares F _); [destruct (Account.steps F _)|]; simpl;
    (split; [done|]); (split; [done|]); (split; [|intros H; trace_in H]);
    repeat constructor.
Qed.

Lemma handleLogin_unknown_witness :
  db_after (Main.handleLogin hash_sample faults_none env_ok db_assigned "alice" "wrong"
              [(2, Main.mkAnswers [Some 1] ["done"; "/tmp/img.jpg"])]) = db_assigned.
Proof.
  apply (handleLogin_unknown hash_sample faults_none env_ok db_assigned "alice" "wrong"
           [(2, Main.mkAnswers [Some 1] ["done"; "/tmp/img.jpg"])]).
  intros k u Hk. change (tbl_users db_assigned) with (tbl_users db_staff) in Hk.
  apply db_staff_users in Hk as [[-> ->]|[-> ->]]; [by left | by right].
Defined.

(** X29.  Register as a worker, then log in: the login enters the worker
    menu, and the menu works under the rowid, not in use before, under
    which the registration stored the user, with the name up to its first
    0 byte. *)
Theorem register_then_handleLogin hashPassword F F' E db username password session :
  Cout "Registration Successfull!"
    ∈ trace (Main.handleRegistration hashPassword F db username password ["worker"]) →
  (∀ q, Account.prepares F' q = true ∧ Account.steps F' q = true) →
  ∃ id, tbl_users db !! id = None
    ∧ tbl_users (db_after (Main.handleRegistration hashPassword F db username password ["worker"]))
        !! id = Some (users.mk (c_str username) (hashPassword password) "worker")
    ∧ Main.handleLogin hashPassword F' E
        (db_after (Main.handleRegistration hashPassword F db username password ["worker"]))
        username password session
      = after [Cout "Logged in successfully!"]
          (Main.menu (Main.workerChoice F' E id)
             (db_after (Main.handleRegistration hashPassword F db username password ["worker"]))
             session).
Proof.
  intros Hok HF. revert Hok.
  unfold Main.handleRegistration. cbn [Main.ask_role bool_decide]. simpl.
  unfold Main.register_as.
  destruct (Account.userExists _ _ _ _ _); [intros H; trace_in H|].
  destruct (Account.registerUser hashPassword F db "worker" username password)
    as [[ok db'] out] eqn:Hreg.
  destruct ok.
  2: { simpl. intros H. exfalso. revert Hreg H. unfold Account.registerUser.
       repeat match goal with |- context [if ?b then _ else _] => destruct b end;
         intros [= <- <-] H; trace_in H. }
  intros _. apply registerUser_true in Hreg as (Hu & Hp & Hfree & ->).
  destruct (insert_user_lookups hashPassword F' db "worker" username password Hu Hp Hfree HF)
    as (Hlogin & Hrole & Hid & _).
  exists (Sql.next_rowid 0 (tbl_users db)). split; [apply next_rowid_fresh|].
  unfold after at 1. cbn [db_after].
  split; [unfold Account.insert_user; cbn [tbl_users]; apply lookup_insert_eq|].
  unfold Main.handleLogin, Main.handleWorkerMenu. rewrite Hrole, Hlogin, Hid.
  rewrite bool_decide_eq_true_2 by done. unfold after. simpl. reflexivity.
Qed.

Lemma register_then_handleLogin_witness :
  ∃ id, tbl_users db_staff !! id = None
    ∧ exit (Main.handleLogin hash_sample faults_none env_ok
              (db_after (Main.handleRegistration hash_sample faults_none db_staff "carol" "pw" ["worker"]))
              "carol" "pw" [(1, Main.mkAnswers [] []); (0, Main.mkAnswers [] [])])
      = exit (after [Cout "Logged in successfully!"]
                (Main.menu (Main.workerChoice faults_none env_ok id)
                   (db_after (Main.handleRegistration hash_sample faults_none db_staff "carol" "pw" ["worker"]))
                   [(1, Main.mkAnswers [] []); (0, Main.mkAnswers [] [])])).
Proof.
  assert (Hok : Cout "Registration Successfull!"
    ∈ trace (Main.handleRegistration hash_sample faults_none db_staff "carol" "pw" ["worker"])).
  { vm_compute. repeat constructor. }
  destruct (register_then_handleLogin hash_sample faults_none faults_none env_ok db_staff
              "carol" "pw" [(1, Main.mkAnswers [] []); (0, Main.mkAnswers [] [])] Hok
              (λ q, conj eq_refl eq_refl)) as (id & Hfree & _ & Heq).
  exists id. split; [exact Hfree|]. by rewrite Heq.
Defined.

(** ** Texts with a 0 byte *)

(** The line "42" followed by a 0 byte has a character that is no digit:
    the check accepts it, and the status stored is "42". *)
Example reportViolation_status_cut :
  Manager.read_status ("42" +:+ String "000" "") = Some ("42" +:+ String "000" "")
  ∧ tasks.status
      <$> tbl_tasks (db_after (Manager.reportViolation env_ok db_assigned [Some 1]
                                 ["42" +:+ String "000" ""])) !! 1
    = Some "42".
Proof. split; reflexivity. Qed.

(** The status "completed", a 0 byte, "x" is stored as "completed": the
    task is no longer offered to its worker. *)
Example reportViolation_completed_cut :
  Worker.validTaskIds env_ok
    (db_after (Manager.reportViolation env_ok db_assigned [Some 1]
                 ["completed" +:+ String "000" "x"])) 5
  = [].
Proof. reflexivity. Qed.

(** The line that is one 0 byte is not empty, and the rule stored is. *)
Example addRule_zero_byte :
  rules.rule_text
    <$> tbl_rules (db_after (Manager.addRule env_ok db_staff [String "000" ""])) !! 1
  = Some "".
Proof. reflexivity. Qed.

(** A report is stored up to its first 0 byte. *)
Example reportTaskWork_report_cut :
  tasks.worker_report
    <$> tbl_tasks (db_after (Worker.reportTaskWork env_ok db_assigned 5 [Some 1]
                               ("PPE" +:+ String "000" " confirmed") "/tmp/img.jpg")) !! 1
  = Some (Some "PPE").
Proof. reflexivity. Qed.

(** The name "alice", a 0 byte, "x" selects the row of alice. *)
Example loginUser_name_cut :
  Account.loginUser hash_sample faults_none db_staff "worker"
    ("alice" +:+ String "000" "x") "y" = (true, [])
  ∧ Account.getUserId hash_sample faults_none db_staff ("alice" +:+ String "000" "x") "y"
    = (5, []).
Proof. split; reflexivity. Qed.

(** ** A task deleted between the listing and the commit *)

(** Task 1 is listed for worker 5 and deleted while the closure sleeps:
    the UPDATE changes no row, and the success line is printed. *)
Example reportTaskWork_at_deleted :
  Cout "Task report submitted successfully."
    ∈ trace (Worker.reportTaskWork_at env_ok db_assigned
               (db_after (Manager.deleteTask env_ok db_assigned [Some 1]))
               5 [Some 1] "PPE confirmed" "/tmp/img.jpg")
  ∧ tbl_tasks (db_after (Worker.reportTaskWork_at env_ok db_assigned
                           (db_after (Manager.deleteTask env_ok db_assigned [Some 1]))
                           5 [Some 1] "PPE confirmed" "/tmp/img.jpg")) !! 1
    = None.
Proof. split; [vm_compute; repeat constructor | reflexivity]. Qed.
